(** * catbox_async_uploader: a shallow embedding of [core.py]

    The client [CatboxAsyncUploader] turns high-level calls into multipart
    POST requests and turns the outcome of a request into an exception of
    [exceptions.py].  The embedding keeps

    - Python values as the code has them: [str] as [string], [int] as [Z],
      [None]-able arguments as [option], [str | bytes] as a tagged union;
    - exceptions as a class tag with its message, together with the
      subclass relation that [except] clauses test;
    - effects as explicit state passing: every coroutine is a function from
      the history of observable events (requests posted, files read,
      sleeps) to the extended history and either a value or a raised
      exception.  The remote service and the file system are an
      environment [env] the operations are run against.

    [logging.debug] and [print] calls are not part of the model. *)

From Stdlib Require Import String Ascii List ZArith QArith Lia Bool.
From Stdlib Require Import DecimalString.
Import ListNotations.

Local Open Scope string_scope.
Local Open Scope Z_scope.

(* ================================================================== *)
(** ** Python strings

    A [str] is modelled by the sequence of its bytes.  Splitting at and
    searching for an ASCII character is the same on bytes as on code
    points; [chars] is the iteration over a [str] for ASCII text. *)

Module PyStr.

(** [c in s] for a one-character [c]. *)
Fixpoint contains (c : ascii) (s : string) : bool :=
  match s with
  | EmptyString => false
  | String a s' => Ascii.eqb a c || contains c s'
  end.

(** [s.startswith(p)]. *)
Definition startswith (s p : string) : bool := String.prefix p s.

(** [s.split(sep)] for a one-character separator: the list of the
    maximal separator-free pieces, never empty. *)
Fixpoint split (sep : ascii) (s : string) : list string :=
  match s with
  | EmptyString => [EmptyString]
  | String a s' =>
      if Ascii.eqb a sep then EmptyString :: split sep s'
      else match split sep s' with
           | w :: ws => String a w :: ws
           | [] => [String a EmptyString]
           end
  end.

(** [l[-1]] on the result of [split], which is never empty (see
    [split_not_nil]); the default of [last] is therefore never returned. *)
Definition last_item (l : list string) : string := List.last l EmptyString.

(** [s.replace(a, b)] for one-character [a] and [b]. *)
Fixpoint replace (a b : ascii) (s : string) : string :=
  match s with
  | EmptyString => EmptyString
  | String c s' => String (if Ascii.eqb c a then b else c) (replace a b s')
  end.

(** [sep.join(l)]. *)
Fixpoint join (sep : string) (l : list string) : string :=
  match l with
  | [] => EmptyString
  | [x] => x
  | x :: rest => x ++ sep ++ join sep rest
  end.

(** Iterating over a [str] yields its one-character strings; this is what
    [join] sees when it is handed a [str] instead of a list. *)
Fixpoint chars (s : string) : list string :=
  match s with
  | EmptyString => []
  | String c s' => String c EmptyString :: chars s'
  end.

(** The characters [str.strip()] removes (the ASCII ones): tab, line feed,
    vertical tab, form feed, carriage return, the separators 28-31 and
    the space. *)
Definition isspace (c : ascii) : bool :=
  let n := nat_of_ascii c in
  ((9 <=? n) && (n <=? 13) || (28 <=? n) && (n <=? 32))%nat.

Fixpoint lstrip (s : string) : string :=
  match s with
  | EmptyString => EmptyString
  | String c s' => if isspace c then lstrip s' else s
  end.

Fixpoint rstrip (s : string) : string :=
  match s with
  | EmptyString => EmptyString
  | String c s' =>
      match rstrip s' with
      | EmptyString => if isspace c then EmptyString else String c EmptyString
      | r => String c r
      end
  end.

(** [s.strip()]. *)
Definition strip (s : string) : string := rstrip (lstrip s).

(** The text after the last separator of [s]; all of [s] when it has no
    separator.  This is the reading of "the trailing segment" by direct
    recursion, against which [split(sep)[-1]] is compared. *)
Fixpoint after_last (sep : ascii) (s : string) : string :=
  match s with
  | EmptyString => EmptyString
  | String a s' =>
      if contains sep s' then after_last sep s'
      else if Ascii.eqb a sep then s' else s
  end.

(** [str(n)] for an [int]. *)
Definition of_int (n : Z) : string := NilZero.string_of_int (Z.to_int n).

End PyStr.

(* ================================================================== *)
(** ** Exceptions ([exceptions.py] and the library classes the [except]
       clauses of [core.py] name) *)

Inductive exc_class : Type :=
| PyException               (* builtins.Exception *)
| PyValueError              (* builtins.ValueError *)
| PyOSError                 (* builtins.OSError *)
| PyFileNotFoundError       (* builtins.FileNotFoundError *)
| AsyncioTimeoutError       (* asyncio.TimeoutError *)
| ClientError               (* aiohttp.ClientError *)
| ClientConnectionError     (* aiohttp.ClientConnectionError *)
| ClientResponseError       (* aiohttp.ClientResponseError *)
| ServerTimeoutError        (* aiohttp.ServerTimeoutError *)
| CatboxError
| CatboxFileNotFoundError
| CatboxTimeoutError
| CatboxConnectionError
| CatboxHTTPError.

Definition exc_class_eqb (a b : exc_class) : bool :=
  match a, b with
  | PyException, PyException | PyValueError, PyValueError
  | PyOSError, PyOSError | PyFileNotFoundError, PyFileNotFoundError
  | AsyncioTimeoutError, AsyncioTimeoutError
  | ClientError, ClientError
  | ClientConnectionError, ClientConnectionError
  | ClientResponseError, ClientResponseError
  | ServerTimeoutError, ServerTimeoutError
  | CatboxError, CatboxError
  | CatboxFileNotFoundError, CatboxFileNotFoundError
  | CatboxTimeoutError, CatboxTimeoutError
  | CatboxConnectionError, CatboxConnectionError
  | CatboxHTTPError, CatboxHTTPError => true
  | _, _ => false
  end.

(** The base classes; none for [Exception], the root of the part of the
    hierarchy that matters here.  [asyncio.TimeoutError] is placed
    directly under [Exception], and aiohttp's [ServerTimeoutError], which
    is both a connection error and a timeout, directly under
    [ClientConnectionError]: no clause of [core.py] names a class in
    between. *)
Definition bases (c : exc_class) : list exc_class :=
  match c with
  | PyException => []
  | PyValueError | PyOSError | AsyncioTimeoutError | ClientError
  | CatboxError => [PyException]
  | PyFileNotFoundError => [PyOSError]
  | ClientConnectionError | ClientResponseError => [ClientError]
  | ServerTimeoutError => [ClientConnectionError; AsyncioTimeoutError]
  | CatboxFileNotFoundError | CatboxTimeoutError | CatboxConnectionError
  | CatboxHTTPError => [CatboxError]
  end.

Fixpoint issubclass_fuel (n : nat) (c d : exc_class) : bool :=
  exc_class_eqb c d ||
  match n with
  | O => false
  | S n' => existsb (fun b => issubclass_fuel n' b d) (bases c)
  end.

(** [issubclass(c, d)]; no class is more than three steps below
    [Exception]. *)
Definition issubclass (c d : exc_class) : bool := issubclass_fuel 3 c d.

(** A raised exception: its class and [str(err)]. *)
Record exc : Type := mkExc { exc_cls : exc_class; exc_msg : string }.

(** [isinstance(e, d)]. *)
Definition isinstance (e : exc) (d : exc_class) : bool :=
  issubclass (exc_cls e) d.

(** The error taxonomy of [exceptions.py]: the instances of [CatboxError]. *)
Definition in_taxonomy (e : exc) : bool := isinstance e CatboxError.

Inductive result (A : Type) : Type :=
| Ok (a : A)
| Raise (e : exc).
Arguments Ok {A} a.
Arguments Raise {A} e.

(* ================================================================== *)
(** ** Requests, the environment and the coroutine monad *)

(** [enums.py]: the retention periods of a temporary upload. *)
Inductive LitterboxDuration : Type := H1 | H12 | H24 | H72 | W1.

Definition duration_value (d : LitterboxDuration) : string :=
  match d with
  | H1 => "1h" | H12 => "12h" | H24 => "24h" | H72 => "72h" | W1 => "1w"
  end.

(** [FilePathOrBytes = str | bytes]; [OtherObject] stands for an argument
    of any other type, which the [else] branch of [_get_content] rejects. *)
Inductive FilePathOrBytes : Type :=
| PathStr (path : string)
| RawBytes (data : list Byte.byte)
| OtherObject.

(** The value of a form field: a [str], a [bytes] or [None]. *)
Inductive field_value : Type :=
| VStr (s : string)
| VBytes (b : list Byte.byte)
| VNone.

(** One [FormData.add_field(name, value, filename=, content_type=)]. *)
Record form_field : Type := mkField {
  fld_name : string;
  fld_value : field_value;
  fld_filename : option string;
  fld_content_type : option string
}.

Definition text_field (name : string) (v : field_value) : form_field :=
  mkField name v None None.

(** One [session.post(url, data=form_data)]; [req_total] is the [total] of
    the [ClientTimeout] the session was built with, [None] for a session
    built without one. *)
Record request : Type := mkRequest {
  req_url : string;
  req_total : option Z;
  req_data : list form_field
}.

Inductive event : Type :=
| ReadFile (path : string)      (* aiofiles.open(path, "rb") and read *)
| Post (r : request)            (* a request handed to the network *)
| Sleep (seconds : Q).          (* asyncio.sleep *)

(** The history of events, newest first. *)
Definition history : Type := list event.

(** What the network does with a request: a response (status and body
    text), or an exception raised while the request is in flight. *)
Inductive net_outcome : Type :=
| Response (status : Z) (body : string)
| NetRaise (e : exc).

(** The world the client runs in.  The network may answer by the history
    so far.  [status_error_str] is [str(err)] of the [ClientResponseError]
    that aiohttp's [raise_for_status] builds for a status. *)
Record env : Type := mkEnv {
  net : history -> request -> net_outcome;
  fs : string -> result (list Byte.byte);
  status_error_str : Z -> string
}.

(** A coroutine: from the history to the new history and the outcome. *)
Definition M (A : Type) : Type := history -> history * result A.

Definition ret {A} (a : A) : M A := fun h => (h, Ok a).

Definition raise {A} (e : exc) : M A := fun h => (h, Raise e).

Definition bind {A B} (m : M A) (k : A -> M B) : M B :=
  fun h => match m h with
           | (h', Ok a) => k a h'
           | (h', Raise e) => (h', Raise e)
           end.

Notation "x <- m ;; k" := (bind m (fun x => k))
  (at level 61, m at next level, right associativity).
Notation "m ;;; k" := (bind m (fun _ => k))
  (at level 61, right associativity).

Definition emit (ev : event) : M unit := fun h => (ev :: h, Ok tt).

(** A value computed without effects that may raise. *)
Definition lift {A} (r : result A) : M A := fun h => (h, r).

(** The clauses of a [try] statement in order: the class each names and
    the exception its body raises.  Every [except] body of [core.py] is a
    single [raise]. *)
Definition handlers : Type := list (exc_class * (exc -> exc)).

Fixpoint handle (hs : handlers) (e : exc) : exc :=
  match hs with
  | [] => e
  | (c, body) :: hs' => if isinstance e c then body e else handle hs' e
  end.

Definition try_except {A} (body : M A) (hs : handlers) : M A :=
  fun h => match body h with
           | (h', Ok a) => (h', Ok a)
           | (h', Raise e) => (h', Raise (handle hs e))
           end.

(** [async with ClientSession(...) as session: async with
    session.post(url, data=...) as response]: the request enters the
    history and the network decides. *)
Definition post (E : env) (r : request) : M (Z * string) :=
  fun h => match net E h r with
           | Response status body => (Post r :: h, Ok (status, body))
           | NetRaise e => (Post r :: h, Raise e)
           end.

(** [response.raise_for_status()]: aiohttp raises [ClientResponseError]
    when the status is 400 or more. *)
Definition raise_for_status (E : env) (status : Z) : M unit :=
  if 400 <=? status
  then raise (mkExc ClientResponseError (status_error_str E status))
  else ret tt.

(** [await asyncio.gather] on a list of coroutines: every coroutine of the list is
    started; the results come back in the order of submission; when some
    fail, the exception of a failed one is raised to the awaiter (here:
    the first in submission order) and the others are not cancelled, so
    their events stay in the history. *)
Fixpoint gather {A} (tasks : list (M A)) : M (list A) :=
  match tasks with
  | [] => ret []
  | t :: ts =>
      fun h => match t h with
               | (h1, Ok a) =>
                   match gather ts h1 with
                   | (h2, Ok l) => (h2, Ok (a :: l))
                   | (h2, Raise e) => (h2, Raise e)
                   end
               | (h1, Raise e) => (fst (gather ts h1), Raise e)
               end
  end.

(** [len(range(start, stop, step))] for a step other than zero. *)
Definition range_length (start stop step : Z) : Z :=
  if 0 <? step
  then (if start <? stop then (stop - start - 1) / step + 1 else 0)
  else (if stop <? start then (start - stop - 1) / (- step) + 1 else 0).

(** [range(start, stop, step)] as the list of its members. *)
Definition py_range (start stop step : Z) : result (list Z) :=
  if step =? 0
  then Raise (mkExc PyValueError "range() arg 3 must not be zero")
  else Ok (map (fun k => start + Z.of_nat k * step)
               (seq 0 (Z.to_nat (range_length start stop step)))).

(** A slice bound brought into [0 .. len]: negative bounds count from the
    end, bounds beyond the ends are clipped. *)
Definition clip (len i : Z) : Z :=
  if i <? 0 then Z.max 0 (i + len) else Z.min i len.

(** [l[lo:hi]]. *)
Definition py_slice {A} (l : list A) (lo hi : Z) : list A :=
  let len := Z.of_nat (length l) in
  let lo' := clip len lo in
  let hi' := clip len hi in
  firstn (Z.to_nat (hi' - lo')) (skipn (Z.to_nat lo') l).

(* ================================================================== *)
(** ** The client ([core.py], class [CatboxAsyncUploader]) *)

Record CatboxAsyncUploader : Type := mkClient {
  userhash : option string
}.

Definition api_url : string := "https://catbox.moe/user/api.php".
Definition file_url : string := "https://files.catbox.moe".
Definition album_url : string := "https://catbox.moe/c".
Definition default_timeout : Z := 30.
Definition default_album_chunk_size : Z := 50.
Definition default_album_time_sleep : Q := 3 # 2.

Definition slash : ascii := "/"%char.
Definition backslash : ascii := "\"%char.

Definition _check_userhash_value (self : CatboxAsyncUploader) : M unit :=
  match userhash self with
  | None => raise (mkExc CatboxError "Userhash is required.")
  | Some _ => ret tt
  end.

(** [self.userhash] as the value of a form field. *)
Definition userhash_value (self : CatboxAsyncUploader) : field_value :=
  match userhash self with
  | Some uh => VStr uh
  | None => VNone
  end.

Definition _get_content (E : env) (file_path_or_bytes : FilePathOrBytes)
  : M (list Byte.byte) :=
  match file_path_or_bytes with
  | PathStr path => emit (ReadFile path) ;;; lift (fs E path)
  | RawBytes data => ret data
  | OtherObject =>
      raise (mkExc CatboxError "Only file paths are supported in this version.")
  end.

Definition _prepare_content (file_path_or_bytes : FilePathOrBytes)
  (file_name : option string) : M (option string * FilePathOrBytes) :=
  let content := file_path_or_bytes in
  match file_name with
  | None =>
      match file_path_or_bytes with
      | PathStr path =>
          ret (Some (PyStr.last_item
                       (PyStr.split slash (PyStr.replace backslash slash path))),
               content)
      | RawBytes _ => raise (mkExc CatboxError "Need to set file_name")
      | OtherObject => ret (None, content)
      end
  | Some _ => ret (file_name, content)
  end.

Definition get_shortcode_from_url (url : string) : string :=
  if PyStr.startswith url file_url || PyStr.startswith url album_url
  then PyStr.last_item (PyStr.split slash url)
  else url.

Definition upload_file (E : env) (self : CatboxAsyncUploader)
  (file_path_or_bytes : FilePathOrBytes) (timeout : Z)
  (file_name : option string) : M string :=
  try_except
    (_check_userhash_value self ;;;
     prepared <- _prepare_content file_path_or_bytes file_name ;;
     let '(file_name, content) := prepared in
     data <- _get_content E content ;;
     let form_data :=
       [ text_field "reqtype" (VStr "fileupload");
         text_field "userhash" (userhash_value self);
         mkField "fileToUpload" (VBytes data) file_name
                 (Some "application/octet-stream") ] in
     response <- post E (mkRequest api_url (Some timeout) form_data) ;;
     let '(status, text) := response in
     if negb (status =? 200)
     then raise (mkExc CatboxError "Failed to upload file to Catbox.")
     else ret (PyStr.strip text))
    [ (AsyncioTimeoutError, fun _ =>
         mkExc CatboxTimeoutError
           ("Upload request timed out after " ++ PyStr.of_int timeout
            ++ " seconds."));
      (ClientConnectionError, fun _ =>
         mkExc CatboxConnectionError "Failed to connect to Catbox.");
      (ClientError, fun err =>
         mkExc CatboxError ("An error occurred: " ++ exc_msg err)) ].

Definition upload_to_litterbox (E : env) (self : CatboxAsyncUploader)
  (file_path_or_bytes : FilePathOrBytes) (file_name : option string)
  (duration : LitterboxDuration) (timeout : Z) : M string :=
  try_except
    (data <- _get_content E file_path_or_bytes ;;
     let form_data :=
       [ text_field "reqtype" (VStr "fileupload");
         text_field "time" (VStr (duration_value duration));
         mkField "fileToUpload" (VBytes data) file_name
                 (Some "application/octet-stream") ] in
     response <- post E (mkRequest api_url (Some timeout) form_data) ;;
     let '(status, text) := response in
     if negb (status =? 200)
     then raise (mkExc PyException "Failed to upload file to Catbox.")
     else ret (PyStr.strip (PyStr.strip text)))
    [ (AsyncioTimeoutError, fun _ =>
         mkExc CatboxTimeoutError
           ("Upload to Litterbox timed out after " ++ PyStr.of_int timeout
            ++ " seconds."));
      (ClientConnectionError, fun _ =>
         mkExc CatboxConnectionError
           "Failed to connect to Litterbox. The server might be down.");
      (ClientResponseError, fun err =>
         mkExc CatboxHTTPError ("HTTP error occurred: " ++ exc_msg err));
      (ClientError, fun err =>
         mkExc CatboxError ("An error occurred: " ++ exc_msg err)) ].

(** [[file_paths[i:i + chunk_size] for i in range(0, len(file_paths),
    chunk_size)]]. *)
Definition chunks (file_paths : list string) (chunk_size : Z)
  : result (list (list string)) :=
  match py_range 0 (Z.of_nat (length file_paths)) chunk_size with
  | Ok starts =>
      Ok (map (fun i => py_slice file_paths i (i + chunk_size)) starts)
  | Raise e => Raise e
  end.

(** [len(chunks)]: the length of the [range] the comprehension runs over. *)
Definition chunk_count (file_paths : list string) (chunk_size : Z) : nat :=
  Z.to_nat (range_length 0 (Z.of_nat (length file_paths)) chunk_size).

(** The [for] loop over the chunks, shared by the two album uploads:
    gather the uploads of the chunk, extend [uploaded_links], sleep. *)
Fixpoint upload_chunks (upload : string -> M string) (time_sleep : Q)
  (todo : list (list string)) (uploaded_links : list string)
  : M (list string) :=
  match todo with
  | [] => ret uploaded_links
  | chunk :: rest =>
      let tasks := map upload chunk in
      links <- gather tasks ;;
      emit (Sleep time_sleep) ;;;
      upload_chunks upload time_sleep rest (uploaded_links ++ links)
  end.

Definition album_handlers (timeout : Z) : handlers :=
  [ (AsyncioTimeoutError, fun _ =>
       mkExc CatboxTimeoutError
         ("Album upload timed out after " ++ PyStr.of_int timeout
          ++ " seconds."));
    (ClientConnectionError, fun _ =>
       mkExc CatboxConnectionError
         "Failed to connect to Catbox. The server might be down.");
    (ClientResponseError, fun err =>
       mkExc CatboxHTTPError ("HTTP error occurred: " ++ exc_msg err));
    (ClientError, fun err =>
       mkExc CatboxError ("An error occurred: " ++ exc_msg err)) ].

Definition upload_album (E : env) (self : CatboxAsyncUploader)
  (file_paths : list string) (timeout chunk_size : Z) (time_sleep : Q)
  : M (list string) :=
  try_except
    (cs <- lift (chunks file_paths chunk_size) ;;
     upload_chunks
       (fun file_path => upload_file E self (PathStr file_path) timeout None)
       time_sleep cs [])
    (album_handlers timeout).

Definition upload_album_to_litterbox (E : env) (self : CatboxAsyncUploader)
  (file_paths : list string) (timeout : Z) (duration : LitterboxDuration)
  (chunk_size : Z) (time_sleep : Q) : M (list string) :=
  try_except
    (cs <- lift (chunks file_paths chunk_size) ;;
     upload_chunks
       (fun file_path =>
          upload_to_litterbox E self (PathStr file_path) None duration timeout)
       time_sleep cs [])
    (album_handlers timeout).

Definition delete_files (E : env) (self : CatboxAsyncUploader)
  (files : list string) (timeout : Z) : M unit :=
  try_except
    (_check_userhash_value self ;;;
     let fields :=
       [ text_field "reqtype" (VStr "deletefiles");
         text_field "userhash" (userhash_value self);
         text_field "files" (VStr (PyStr.join " " files)) ] in
     response <- post E (mkRequest api_url (Some timeout) fields) ;;
     raise_for_status E (fst response))
    [ (ClientError, fun err =>
         mkExc CatboxError ("Failed to delete files: " ++ exc_msg err)) ].

Definition create_album (E : env) (self : CatboxAsyncUploader)
  (files : list string) (title description : string) : M string :=
  try_except
    (_check_userhash_value self ;;;
     let fields :=
       [ text_field "reqtype" (VStr "createalbum");
         text_field "userhash" (userhash_value self);
         text_field "title" (VStr title);
         text_field "desc" (VStr description);
         text_field "files"
           (VStr (PyStr.join " "
                    (PyStr.chars
                       (PyStr.join " " (map get_shortcode_from_url files))))) ]
     in
     response <- post E (mkRequest api_url None fields) ;;
     raise_for_status E (fst response) ;;;
     ret (PyStr.strip (snd response)))
    [ (ClientError, fun err =>
         mkExc CatboxError ("Failed to create album: " ++ exc_msg err)) ].

Definition edit_album (E : env) (self : CatboxAsyncUploader)
  (shortcode : string) (files : list string) (title description : string)
  : M unit :=
  try_except
    (_check_userhash_value self ;;;
     let fields :=
       [ text_field "reqtype" (VStr "editalbum");
         text_field "userhash" (userhash_value self);
         text_field "short" (VStr shortcode);
         text_field "title" (VStr title);
         text_field "desc" (VStr description);
         text_field "files"
           (VStr (PyStr.join " " (map get_shortcode_from_url files))) ] in
     response <- post E (mkRequest api_url None fields) ;;
     raise_for_status E (fst response))
    [ (ClientError, fun err =>
         mkExc CatboxError ("Failed to edit album: " ++ exc_msg err)) ].

Definition delete_album (E : env) (self : CatboxAsyncUploader)
  (shortcode : string) : M unit :=
  try_except
    (_check_userhash_value self ;;;
     let fields :=
       [ text_field "reqtype" (VStr "deletealbum");
         text_field "userhash" (userhash_value self);
         text_field "short" (VStr shortcode) ] in
     response <- post E (mkRequest api_url None fields) ;;
     raise_for_status E (fst response))
    [ (ClientError, fun err =>
         mkExc CatboxError ("Failed to delete album: " ++ exc_msg err)) ].

(** The requests of a history, newest first. *)
Definition requests (h : history) : list request :=
  flat_map (fun ev => match ev with Post r => [r] | _ => [] end) h.

(** The sleeps of a history, newest first. *)
Definition sleeps (h : history) : list Q :=
  flat_map (fun ev => match ev with Sleep d => [d] | _ => [] end) h.

(** The value a request carries under a field name. *)
Definition form_value (name : string) (r : request) : option field_value :=
  option_map fld_value
    (find (fun f => String.eqb (fld_name f) name) (req_data r)).

(** The form [upload_file] posts for a token, file content and name. *)
Definition upload_file_request (uh : string) (data : list Byte.byte)
  (file_name : option string) (timeout : Z) : request :=
  mkRequest api_url (Some timeout)
    [ text_field "reqtype" (VStr "fileupload");
      text_field "userhash" (VStr uh);
      mkField "fileToUpload" (VBytes data) file_name
              (Some "application/octet-stream") ].

(** The form [upload_to_litterbox] posts. *)
Definition litterbox_request (duration : LitterboxDuration)
  (data : list Byte.byte) (file_name : option string) (timeout : Z) : request :=
  mkRequest api_url (Some timeout)
    [ text_field "reqtype" (VStr "fileupload");
      text_field "time" (VStr (duration_value duration));
      mkField "fileToUpload" (VBytes data) file_name
              (Some "application/octet-stream") ].

(** The form [delete_files] posts. *)
Definition delete_files_request (uh : string) (files : list string)
  (timeout : Z) : request :=
  mkRequest api_url (Some timeout)
    [ text_field "reqtype" (VStr "deletefiles");
      text_field "userhash" (VStr uh);
      text_field "files" (VStr (PyStr.join " " files)) ].

(** Some call of the coroutine [upload] on the path [p] returned [u]. *)
Definition returned_by (upload : string -> M string) (p u : string) : Prop :=
  exists h1 h2, upload p h1 = (h2, Ok u).

(** Every request of the history went to the API endpoint. *)
Definition only_api (h : history) : Prop :=
  Forall (fun r => req_url r = api_url) (requests h).

(** The exception [_check_userhash_value] raises. *)
Definition userhash_required : exc :=
  mkExc CatboxError "Userhash is required.".

(* ================================================================== *)
(** ** Concrete clients and services on which the operations are run *)

Module Sample.

Definition newline : string := String (ascii_of_nat 10) EmptyString.

(** The [filename] of the file part of a form. *)
Fixpoint uploaded_name (data : list form_field) : string :=
  match data with
  | [] => EmptyString
  | f :: rest =>
      match fld_filename f with
      | Some name => name
      | None => uploaded_name rest
      end
  end.

Definition some_bytes : list Byte.byte := [Byte.x89; Byte.x50; Byte.x4e; Byte.x47].

(** The hosted URL of a file name. *)
Definition hosted (name : string) : string := file_url ++ "/" ++ name.

(** A service that accepts every request and answers an upload with the
    hosted URL of the file, newline-terminated; every path is readable. *)
Definition hosting : env :=
  mkEnv (fun _ r => Response 200 (hosted (uploaded_name (req_data r)) ++ newline))
        (fun _ => Ok some_bytes)
        PyStr.of_int.

(** A temporary-upload service answering with a fixed URL. *)
Definition litter : env :=
  mkEnv (fun _ _ => Response 200 ("https://litter.catbox.moe/q1w2e3.png" ++ newline))
        (fun _ => Ok some_bytes)
        PyStr.of_int.

(** A service answering every request with status 500. *)
Definition broken : env :=
  mkEnv (fun _ _ => Response 500 "Internal Server Error")
        (fun _ => Ok some_bytes)
        PyStr.of_int.


(** A service that never answers within the timeout of the session. *)
Definition slow : env :=
  mkEnv (fun _ _ => NetRaise (mkExc AsyncioTimeoutError EmptyString))
        (fun _ => Ok some_bytes)
        PyStr.of_int.

(** A service that cannot be connected to within the timeout. *)
Definition unreachable : env :=
  mkEnv (fun _ r =>
           NetRaise (mkExc ServerTimeoutError
                       ("Connection timeout to host " ++ req_url r)))
        (fun _ => Ok some_bytes)
        PyStr.of_int.

(** A service no connection can be made to. *)
Definition offline : env :=
  mkEnv (fun _ _ =>
           NetRaise (mkExc ClientConnectionError
                       "Cannot connect to host catbox.moe:443"))
        (fun _ => Ok some_bytes)
        PyStr.of_int.

(** A machine on which no path can be opened. *)
Definition no_files : env :=
  mkEnv (fun _ _ => Response 200 EmptyString)
        (fun path =>
           Raise (mkExc PyFileNotFoundError
                    ("[Errno 2] No such file or directory: '" ++ path ++ "'")))
        PyStr.of_int.

Definition three_paths : list string := ["a.png"; "b.png"; "c.png"].

Definition anonymous : CatboxAsyncUploader := mkClient None.
Definition member : CatboxAsyncUploader := mkClient (Some "0123456789abcdef").

End Sample.

(* ================================================================== *)
(** ** Facts about the string operations *)

Section SplitFacts.

Variable sep : ascii.

Lemma split_not_nil (s : string) : PyStr.split sep s <> [].
Proof.
  destruct s as [|a s]; simpl; [discriminate|].
  destruct (Ascii.eqb a sep); [discriminate|].
  destruct (PyStr.split sep s); discriminate.
Qed.

Lemma split_without_sep (s : string) :
  PyStr.contains sep s = false -> PyStr.split sep s = [s].
Proof.
  induction s as [|a s IH]; simpl; intros H; [reflexivity|].
  apply orb_false_iff in H. destruct H as [Ha Hs].
  rewrite Ha, (IH Hs). reflexivity.
Qed.

Lemma split_with_sep (s : string) :
  PyStr.contains sep s = true ->
  exists w w' ws, PyStr.split sep s = w :: w' :: ws.
Proof.
  induction s as [|a s IH]; simpl; intros H; [discriminate|].
  destruct (Ascii.eqb a sep) eqn:Ha.
  - destruct (PyStr.split sep s) as [|w ws] eqn:Hsp.
    + exfalso. exact (split_not_nil s Hsp).
    + exists EmptyString, w, ws. reflexivity.
  - simpl in H. destruct (IH H) as (w & w' & ws & Hsp).
    rewrite Hsp. exists (String a w), w', ws. reflexivity.
Qed.

Lemma last_item_split (s : string) :
  PyStr.last_item (PyStr.split sep s) = PyStr.after_last sep s.
Proof.
  unfold PyStr.last_item.
  induction s as [|a s IH]; [reflexivity|].
  simpl. destruct (PyStr.contains sep s) eqn:Hc.
  - destruct (split_with_sep s Hc) as (w & w' & ws & Hsp).
    rewrite <- IH, Hsp. destruct (Ascii.eqb a sep); reflexivity.
  - rewrite (split_without_sep s Hc).
    destruct (Ascii.eqb a sep); reflexivity.
Qed.

Lemma after_last_no_sep (s : string) :
  PyStr.contains sep (PyStr.after_last sep s) = false.
Proof.
  induction s as [|a s IH]; [reflexivity|].
  simpl. destruct (PyStr.contains sep s) eqn:Hc; [exact IH|].
  destruct (Ascii.eqb a sep) eqn:Ha; [exact Hc|].
  simpl. rewrite Ha, Hc. reflexivity.
Qed.

Lemma after_last_decompose (s : string) :
  PyStr.contains sep s = true ->
  exists p, s = p ++ String sep (PyStr.after_last sep s).
Proof.
  induction s as [|a s IH]; simpl; intros H; [discriminate|].
  destruct (PyStr.contains sep s) eqn:Hc.
  - destruct (IH eq_refl) as [p Hp].
    exists (String a p). simpl. rewrite <- Hp. reflexivity.
  - rewrite orb_false_r in H. rewrite H.
    apply Ascii.eqb_eq in H. subst a.
    exists EmptyString. reflexivity.
Qed.

Lemma after_last_without_sep (s : string) :
  PyStr.contains sep s = false -> PyStr.after_last sep s = s.
Proof.
  destruct s as [|a s]; simpl; intros H; [reflexivity|].
  apply orb_false_iff in H. destruct H as [Ha Hs].
  rewrite Hs, Ha. reflexivity.
Qed.

Lemma contains_app (p t : string) :
  PyStr.contains sep (p ++ t) = PyStr.contains sep p || PyStr.contains sep t.
Proof.
  induction p as [|a p IH]; simpl; [reflexivity|].
  rewrite IH. apply orb_assoc.
Qed.

End SplitFacts.

Lemma startswith_app (s p : string) :
  PyStr.startswith s p = true -> exists t, s = p ++ t.
Proof.
  unfold PyStr.startswith. revert s.
  induction p as [|a p IH]; intros s H.
  - exists s. reflexivity.
  - destruct s as [|b s]; simpl in H; [discriminate|].
    destruct (ascii_dec a b) as [->|]; [|discriminate].
    destruct (IH s H) as [t ->]. exists t. reflexivity.
Qed.

Lemma startswith_contains (c : ascii) (s p : string) :
  PyStr.startswith s p = true ->
  PyStr.contains c p = true -> PyStr.contains c s = true.
Proof.
  intros Hs Hp. destruct (startswith_app s p Hs) as [t ->].
  rewrite contains_app, Hp. reflexivity.
Qed.

(** An url that matches one of the two known prefixes contains a slash. *)
Lemma known_prefix_has_slash (url : string) :
  PyStr.startswith url file_url || PyStr.startswith url album_url = true ->
  PyStr.contains slash url = true.
Proof.
  intros H. apply orb_true_iff in H. destruct H as [H|H];
    eapply startswith_contains; try exact H; reflexivity.
Qed.

(* ================================================================== *)
(** ** Shortcode extraction *)

(** C3.  For every string [url]: when [url] starts with the file-hosting
    or the album-hosting base URL, [get_shortcode_from_url] returns the
    text after the last slash of [url]: the result has no slash and [url]
    is some prefix, a slash, and the result; otherwise it returns [url]
    unchanged.  The two documented examples evaluate to [abc123] and
    [xyz789], and an unrelated URL to itself. *)
Theorem get_shortcode_from_url_spec :
  (forall url : string,
     let r := get_shortcode_from_url url in
     if PyStr.startswith url file_url || PyStr.startswith url album_url
     then PyStr.contains slash r = false
          /\ (exists p, url = p ++ String slash r)
          /\ r = PyStr.after_last slash url
     else r = url)
  /\ get_shortcode_from_url "https://files.catbox.moe/abc123" = "abc123"
  /\ get_shortcode_from_url "https://catbox.moe/c/xyz789" = "xyz789"
  /\ get_shortcode_from_url "https://example.org/a/b" = "https://example.org/a/b".
Proof.
  split; [|repeat split; reflexivity].
  intros url r. subst r. unfold get_shortcode_from_url.
  destruct (PyStr.startswith url file_url || PyStr.startswith url album_url)
    eqn:Hm; [|reflexivity].
  rewrite last_item_split.
  split; [apply after_last_no_sep|].
  split; [|reflexivity].
  apply after_last_decompose, known_prefix_has_slash, Hm.
Qed.

(** C9.  [get_shortcode_from_url] is idempotent: the extracted segment has
    no slash, so it matches neither known prefix and is left as it is. *)
Theorem get_shortcode_from_url_idempotent (url : string) :
  get_shortcode_from_url (get_shortcode_from_url url)
  = get_shortcode_from_url url.
Proof.
  unfold get_shortcode_from_url at 2 3.
  destruct (PyStr.startswith url file_url || PyStr.startswith url album_url)
    eqn:Hm.
  - rewrite last_item_split. unfold get_shortcode_from_url.
    destruct (PyStr.startswith (PyStr.after_last slash url) file_url
              || PyStr.startswith (PyStr.after_last slash url) album_url) eqn:Hr;
      [|reflexivity].
    apply known_prefix_has_slash in Hr.
    rewrite after_last_no_sep in Hr. discriminate.
  - unfold get_shortcode_from_url. rewrite Hm. reflexivity.
Qed.

(* ================================================================== *)
(** ** The token check *)

Lemma check_userhash_absent (self : CatboxAsyncUploader) (h : history) :
  userhash self = None ->
  _check_userhash_value self h = (h, Raise userhash_required).
Proof. unfold _check_userhash_value. intros ->. reflexivity. Qed.

Lemma userhash_required_in_taxonomy : in_taxonomy userhash_required = true.
Proof. reflexivity. Qed.

(** C2.  On a client without a token, [upload_file], [delete_files],
    [create_album], [edit_album] and [delete_album] raise the missing-token
    error ([CatboxError], "Userhash is required.") and leave the history
    as it was: no request is posted (and no file is read). *)
Theorem token_required_before_any_request
  (E : env) (self : CatboxAsyncUploader) (h : history) :
  userhash self = None ->
  (forall input timeout file_name,
     upload_file E self input timeout file_name h
     = (h, Raise userhash_required))
  /\ (forall files timeout,
        delete_files E self files timeout h = (h, Raise userhash_required))
  /\ (forall files title description,
        create_album E self files title description h
        = (h, Raise userhash_required))
  /\ (forall shortcode files title description,
        edit_album E self shortcode files title description h
        = (h, Raise userhash_required))
  /\ (forall shortcode,
        delete_album E self shortcode h = (h, Raise userhash_required))
  /\ in_taxonomy userhash_required = true.
Proof.
  intros Hnone.
  repeat split; intros;
    unfold upload_file, delete_files, create_album, edit_album, delete_album,
           try_except, bind;
    rewrite ?(check_userhash_absent self h Hnone); reflexivity.
Qed.

Lemma token_required_before_any_request_witness :
  userhash Sample.anonymous = None
  /\ upload_file Sample.hosting Sample.anonymous (PathStr "cat.png") 30 None []
     = ([], Raise userhash_required)
  /\ delete_files Sample.hosting Sample.anonymous ["cat.png"] 30 []
     = ([], Raise userhash_required).
Proof.
  split; [reflexivity|].
  destruct (token_required_before_any_request
              Sample.hosting Sample.anonymous [] eq_refl)
    as (Hup & Hdel & _).
  split; [apply Hup | apply Hdel].
Defined.

(* ================================================================== *)
(** ** Uploads of a byte buffer: what is posted and what comes back *)

Section BufferUploads.

Variable E : env.
Variables (data : list Byte.byte) (timeout : Z) (h : history).

(** [upload_file] on a named buffer posts one form and maps the outcome. *)
Lemma upload_file_buffer (uh name : string) :
  upload_file E (mkClient (Some uh)) (RawBytes data) timeout (Some name) h
  = let req := upload_file_request uh data (Some name) timeout in
    (Post req :: h,
     match net E h req with
     | Response status text =>
         if status =? 200 then Ok (PyStr.strip text)
         else Raise (mkExc CatboxError "Failed to upload file to Catbox.")
     | NetRaise e =>
         if isinstance e AsyncioTimeoutError
         then Raise (mkExc CatboxTimeoutError
                       ("Upload request timed out after "
                        ++ PyStr.of_int timeout ++ " seconds."))
         else if isinstance e ClientConnectionError
         then Raise (mkExc CatboxConnectionError "Failed to connect to Catbox.")
         else if isinstance e ClientError
         then Raise (mkExc CatboxError ("An error occurred: " ++ exc_msg e))
         else Raise e
     end).
Proof.
  unfold upload_file, try_except, bind, post, upload_file_request; simpl.
  destruct (net E h _) as [status text|e]; simpl.
  - destruct (status =? 200); reflexivity.
  - destruct (isinstance e AsyncioTimeoutError); [reflexivity|].
    destruct (isinstance e ClientConnectionError); [reflexivity|].
    destruct (isinstance e ClientError); reflexivity.
Qed.

(** [upload_to_litterbox] on a buffer posts one form whatever the file
    name is, and maps the outcome. *)
Lemma upload_to_litterbox_buffer (self : CatboxAsyncUploader)
  (file_name : option string) (duration : LitterboxDuration) :
  upload_to_litterbox E self (RawBytes data) file_name duration timeout h
  = let req := litterbox_request duration data file_name timeout in
    (Post req :: h,
     match net E h req with
     | Response status text =>
         if status =? 200 then Ok (PyStr.strip (PyStr.strip text))
         else Raise (mkExc PyException "Failed to upload file to Catbox.")
     | NetRaise e =>
         if isinstance e AsyncioTimeoutError
         then Raise (mkExc CatboxTimeoutError
                       ("Upload to Litterbox timed out after "
                        ++ PyStr.of_int timeout ++ " seconds."))
         else if isinstance e ClientConnectionError
         then Raise (mkExc CatboxConnectionError
                       "Failed to connect to Litterbox. The server might be down.")
         else if isinstance e ClientResponseError
         then Raise (mkExc CatboxHTTPError
                       ("HTTP error occurred: " ++ exc_msg e))
         else if isinstance e ClientError
         then Raise (mkExc CatboxError ("An error occurred: " ++ exc_msg e))
         else Raise e
     end).
Proof.
  unfold upload_to_litterbox, try_except, bind, post, litterbox_request; simpl.
  destruct (net E h _) as [status text|e]; simpl.
  - destruct (status =? 200); reflexivity.
  - destruct (isinstance e AsyncioTimeoutError); [reflexivity|].
    destruct (isinstance e ClientConnectionError); [reflexivity|].
    destruct (isinstance e ClientResponseError); [reflexivity|].
    destruct (isinstance e ClientError); reflexivity.
Qed.

(** X24.  [upload_file] on a buffer without a file name never reaches
    the network, with or without a token: it raises an error of the
    taxonomy and leaves the history as it was. *)
Lemma upload_file_unnamed_buffer (self : CatboxAsyncUploader) :
  exists e,
    upload_file E self (RawBytes data) timeout None h = (h, Raise e)
    /\ in_taxonomy e = true.
Proof.
  destruct self as [[uh|]].
  - exists (mkExc CatboxError "Need to set file_name"). split; reflexivity.
  - exists userhash_required. split; reflexivity.
Qed.

(** [delete_files] with a token posts one form; only [ClientError] and
    its subclasses are translated. *)
Lemma delete_files_posts (uh : string) (files : list string) :
  delete_files E (mkClient (Some uh)) files timeout h
  = let req := delete_files_request uh files timeout in
    (Post req :: h,
     match net E h req with
     | Response status _ =>
         if 400 <=? status
         then Raise (mkExc CatboxError
                       ("Failed to delete files: " ++ status_error_str E status))
         else Ok tt
     | NetRaise e =>
         if isinstance e ClientError
         then Raise (mkExc CatboxError
                       ("Failed to delete files: " ++ exc_msg e))
         else Raise e
     end).
Proof.
  unfold delete_files, try_except, bind, post, raise_for_status,
         delete_files_request; simpl.
  destruct (net E h _) as [status text|e]; simpl.
  - destruct (400 <=? status); reflexivity.
  - destruct (isinstance e ClientError); reflexivity.
Qed.

End BufferUploads.

(** On a non-200 answer [upload_file] raises the generic upload error. *)
Lemma upload_file_non_200 (E : env) (uh name : string)
  (data : list Byte.byte) (timeout : Z) (h : history) (status : Z)
  (text : string) :
  net E h (upload_file_request uh data (Some name) timeout)
  = Response status text ->
  status <> 200 ->
  snd (upload_file E (mkClient (Some uh)) (RawBytes data) timeout (Some name) h)
  = Raise (mkExc CatboxError "Failed to upload file to Catbox.").
Proof.
  intros Hnet Hs. rewrite upload_file_buffer. simpl. rewrite Hnet.
  apply Z.eqb_neq in Hs. rewrite Hs. reflexivity.
Qed.

(** A request of [upload_file] or [upload_to_litterbox] that runs into
    [asyncio.TimeoutError] surfaces as [CatboxTimeoutError]. *)
Lemma upload_timeout_is_translated (E : env) (self : CatboxAsyncUploader)
  (uh name : string) (file_name : option string) (d : LitterboxDuration)
  (data : list Byte.byte) (timeout : Z) (h : history) :
  (forall h' r, exists msg, net E h' r = NetRaise (mkExc AsyncioTimeoutError msg)) ->
  snd (upload_file E (mkClient (Some uh)) (RawBytes data) timeout (Some name) h)
  = Raise (mkExc CatboxTimeoutError
             ("Upload request timed out after " ++ PyStr.of_int timeout
              ++ " seconds."))
  /\ snd (upload_to_litterbox E self (RawBytes data) file_name d timeout h)
     = Raise (mkExc CatboxTimeoutError
                ("Upload to Litterbox timed out after " ++ PyStr.of_int timeout
                 ++ " seconds.")).
Proof.
  intros Hslow. rewrite upload_file_buffer, upload_to_litterbox_buffer.
  cbv zeta. unfold snd.
  destruct (Hslow h (upload_file_request uh data (Some name) timeout))
    as [m1 ->].
  destruct (Hslow h (litterbox_request d data file_name timeout)) as [m2 ->].
  split; reflexivity.
Qed.

(* ================================================================== *)
(** ** Where the operations leave the documented behaviour *)

(** C4.  A temporary upload answered with status 500 raises a plain
    [Exception] carrying the upload message: the error is not an instance
    of [CatboxError], while [upload_file] on the same answer raises
    [CatboxError]. *)
Theorem litterbox_non_200_raises_plain_exception :
  snd (upload_to_litterbox Sample.broken Sample.anonymous
         (RawBytes Sample.some_bytes) (Some "cat.png") H1 30 [])
  = Raise (mkExc PyException "Failed to upload file to Catbox.")
  /\ in_taxonomy (mkExc PyException "Failed to upload file to Catbox.") = false
  /\ snd (upload_file Sample.broken Sample.member
            (RawBytes Sample.some_bytes) 30 (Some "cat.png") [])
     = Raise (mkExc CatboxError "Failed to upload file to Catbox.").
Proof. repeat split; reflexivity. Qed.

(** C5.  A temporary upload of a byte buffer without a file name is not
    refused: the form is posted with no file name and the call returns
    the URL the service answers.  [upload_file] on the same input raises
    "Need to set file_name" and posts nothing. *)
Theorem litterbox_unnamed_buffer_is_posted :
  upload_to_litterbox Sample.litter Sample.anonymous
    (RawBytes Sample.some_bytes) None H1 30 []
  = ([Post (litterbox_request H1 Sample.some_bytes None 30)],
     Ok "https://litter.catbox.moe/q1w2e3.png")
  /\ upload_file Sample.litter Sample.member
       (RawBytes Sample.some_bytes) 30 None []
     = ([], Raise (mkExc CatboxError "Need to set file_name")).
Proof. split; reflexivity. Qed.

(** C6.  Exceptions outside the taxonomy reach the caller: the plain
    [Exception] of a temporary upload answered with a non-200 status, the
    [asyncio.TimeoutError] of a [delete_files] request that times out, and
    the [FileNotFoundError] of an [upload_file] whose path cannot be
    opened. *)
Theorem exceptions_outside_taxonomy_escape :
  (exists e,
     snd (upload_to_litterbox Sample.broken Sample.anonymous
            (RawBytes Sample.some_bytes) (Some "cat.png") H1 30 []) = Raise e
     /\ exc_cls e = PyException /\ in_taxonomy e = false)
  /\ (exists e,
        snd (delete_files Sample.slow Sample.member ["cat.png"] 30 []) = Raise e
        /\ exc_cls e = AsyncioTimeoutError /\ in_taxonomy e = false)
  /\ (exists e,
        snd (upload_file Sample.no_files Sample.member
               (PathStr "cat.png") 30 None []) = Raise e
        /\ exc_cls e = PyFileNotFoundError /\ in_taxonomy e = false).
Proof.
  repeat split; eexists; repeat split; reflexivity.
Qed.

(** C7.  A [delete_files] request that exceeds its timeout lets
    [asyncio.TimeoutError] through untranslated, and a connection that
    times out comes back as the generic [CatboxError], not as
    [CatboxTimeoutError]; the same services make [upload_file] raise
    [CatboxTimeoutError], and an album upload stops in its first chunk
    with that error, before any sleep. *)
Theorem delete_files_timeout_is_not_translated :
  delete_files Sample.slow Sample.member ["cat.png"] 30 []
  = ([Post (delete_files_request "0123456789abcdef" ["cat.png"] 30)],
     Raise (mkExc AsyncioTimeoutError EmptyString))
  /\ in_taxonomy (mkExc AsyncioTimeoutError EmptyString) = false
  /\ snd (delete_files Sample.unreachable Sample.member ["cat.png"] 30 [])
     = Raise (mkExc CatboxError
                "Failed to delete files: Connection timeout to host https://catbox.moe/user/api.php")
  /\ snd (upload_file Sample.unreachable Sample.member (PathStr "cat.png")
            30 None [])
     = Raise (mkExc CatboxTimeoutError
                "Upload request timed out after 30 seconds.")
  /\ snd (upload_file Sample.slow Sample.member (PathStr "cat.png") 30 None [])
     = Raise (mkExc CatboxTimeoutError
                "Upload request timed out after 30 seconds.")
  /\ (let run := upload_album Sample.slow Sample.member
                   ["a.png"; "b.png"; "c.png"] 30 2 (3 # 2) [] in
      snd run = Raise (mkExc CatboxTimeoutError
                         "Upload request timed out after 30 seconds.")
      /\ sleeps (fst run) = []).
Proof. repeat split; reflexivity. Qed.

(** C8.  [create_album] joins the space-joined shortcodes a second time,
    character by character: for the files [ab.png] and [cd.png] the
    [files] field is "a b . p n g   c d . p n g", not "ab.png cd.png".
    [edit_album] on the same list submits "ab.png cd.png". *)
Theorem create_album_files_field_is_joined_twice :
  let files := ["https://files.catbox.moe/ab.png"; "cd.png"] in
  let expected := PyStr.join " " (map get_shortcode_from_url files) in
  expected = "ab.png cd.png"
  /\ map (form_value "files")
         (requests (fst (create_album Sample.hosting Sample.member
                           files "cats" "" [])))
     = [Some (VStr "a b . p n g   c d . p n g")]
  /\ map (form_value "files")
         (requests (fst (edit_album Sample.hosting Sample.member "xyz789"
                           files "cats" "" [])))
     = [Some (VStr expected)].
Proof. repeat split; reflexivity. Qed.

(* ================================================================== *)
(** ** Album uploads of no file *)

Lemma chunks_nil (chunk_size : Z) :
  chunk_size <> 0 -> chunks [] chunk_size = Ok [].
Proof.
  intros Hc. unfold chunks, py_range, range_length.
  apply Z.eqb_neq in Hc. rewrite Hc. simpl.
  destruct (0 <? chunk_size); reflexivity.
Qed.

(** C10, as the code has it.  With an empty list of paths and a chunk
    size other than zero, [upload_album] and [upload_album_to_litterbox]
    return the empty list and leave the history as it was: no request, no
    sleep, and no token check, whatever the client's token is. *)
Theorem upload_album_of_nothing
  (E : env) (self : CatboxAsyncUploader) (timeout chunk_size : Z)
  (duration : LitterboxDuration) (time_sleep : Q) (h : history) :
  chunk_size <> 0 ->
  upload_album E self [] timeout chunk_size time_sleep h = (h, Ok [])
  /\ upload_album_to_litterbox E self [] timeout duration chunk_size
       time_sleep h = (h, Ok []).
Proof.
  intros Hc.
  unfold upload_album, upload_album_to_litterbox, try_except, bind, lift.
  rewrite (chunks_nil _ Hc). split; reflexivity.
Qed.

Lemma upload_album_of_nothing_witness :
  50 <> 0
  /\ upload_album Sample.hosting Sample.anonymous [] 30 50 (3 # 2) []
     = ([], Ok [])
  /\ upload_album_to_litterbox Sample.hosting Sample.anonymous [] 30 H1 50
       (3 # 2) [] = ([], Ok []).
Proof.
  split; [discriminate|].
  apply (upload_album_of_nothing Sample.hosting Sample.anonymous 30 50 H1
           (3 # 2) []).
  discriminate.
Defined.

(** C10 as stated fails at chunk size zero: [range] refuses a zero step,
    so the call on an empty list raises [ValueError] instead of returning
    the empty list. *)
Lemma upload_album_of_nothing_chunk_size_zero :
  upload_album Sample.hosting Sample.anonymous [] 30 0 (3 # 2) []
  = ([], Raise (mkExc PyValueError "range() arg 3 must not be zero"))
  /\ upload_album Sample.hosting Sample.anonymous [] 30 0 (3 # 2) []
     <> ([], Ok [])
  /\ upload_album_to_litterbox Sample.hosting Sample.anonymous [] 30 H1 0
       (3 # 2) []
     <> ([], Ok []).
Proof. repeat split; try reflexivity; discriminate. Qed.

(* ================================================================== *)
(** ** Chunking *)

Lemma firstn_add {A} (a b : nat) (l : list A) :
  firstn (a + b)%nat l = (firstn a l ++ firstn b (skipn a l))%list.
Proof.
  revert l. induction a as [|a IH]; intros l; [reflexivity|].
  destruct l as [|x l]; simpl.
  - rewrite firstn_nil. reflexivity.
  - rewrite IH. reflexivity.
Qed.

(** A slice that starts inside the list and spans [c > 0] places is the
    first [c] items after the start. *)
Lemma py_slice_from {A} (l : list A) (i c : Z) :
  0 <= i <= Z.of_nat (length l) -> 0 < c ->
  py_slice l i (i + c) = firstn (Z.to_nat c) (skipn (Z.to_nat i) l).
Proof.
  intros Hi Hc. unfold py_slice, clip.
  destruct (Z.ltb_spec i 0) as [?|_]; [lia|].
  destruct (Z.ltb_spec (i + c) 0) as [?|_]; [lia|].
  rewrite (Z.min_l i) by lia.
  destruct (Z.le_ge_cases (i + c) (Z.of_nat (length l))) as [Hle|Hge].
  - rewrite Z.min_l by lia. f_equal. lia.
  - rewrite Z.min_r by lia.
    rewrite !firstn_all2; [reflexivity| |]; rewrite length_skipn; lia.
Qed.

(** The number of members of [range(0, n, c)] for [c >= 1] is the least
    [k] with [n <= k * c]. *)
Lemma range_length_bounds (n c : Z) :
  0 <= n -> 1 <= c ->
  0 <= range_length 0 n c
  /\ (range_length 0 n c - 1) * c < n <= range_length 0 n c * c.
Proof.
  intros Hn Hc. unfold range_length.
  destruct (Z.ltb_spec 0 c) as [_|?]; [|lia].
  destruct (Z.ltb_spec 0 n) as [Hpos|Hz].
  - pose proof (Z.mul_div_le (n - 0 - 1) c ltac:(lia)) as Hlo.
    pose proof (Z.mul_succ_div_gt (n - 0 - 1) c ltac:(lia)) as Hhi.
    pose proof (Z.div_pos (n - 0 - 1) c ltac:(lia) ltac:(lia)) as Hq.
    split; [lia|]. split; nia.
  - split; [lia|]. lia.
Qed.

Section Chunks.

Variable file_paths : list string.
Variable C : Z.
Hypothesis C_pos : 1 <= C.

Lemma chunk_count_bounds :
  (Z.of_nat (chunk_count file_paths C) - 1) * C
  < Z.of_nat (length file_paths)
  <= Z.of_nat (chunk_count file_paths C) * C.
Proof.
  destruct (range_length_bounds (Z.of_nat (length file_paths)) C
              ltac:(lia) C_pos) as [Hk Hb].
  unfold chunk_count. rewrite Z2Nat.id by exact Hk. exact Hb.
Qed.

(** The block of [C] paths number [k]. *)
Lemma chunks_blocks :
  chunks file_paths C
  = Ok (map (fun k => firstn (Z.to_nat C)
                        (skipn (k * Z.to_nat C) file_paths))
            (seq 0 (chunk_count file_paths C))).
Proof.
  unfold chunks, py_range.
  destruct (Z.eqb_spec C 0) as [?|_]; [lia|].
  fold (chunk_count file_paths C).
  rewrite map_map. f_equal.
  apply map_ext_in. intros k Hk. apply in_seq in Hk.
  pose proof chunk_count_bounds as Hb.
  rewrite py_slice_from; [|nia|lia].
  f_equal. f_equal. nia.
Qed.

Lemma concat_blocks (m : nat) :
  concat (map (fun k => firstn (Z.to_nat C)
                          (skipn (k * Z.to_nat C) file_paths))
              (seq 0 m))
  = firstn (m * Z.to_nat C) file_paths.
Proof.
  induction m as [|m IH]; [reflexivity|].
  rewrite seq_S, map_app, concat_app, IH. simpl.
  rewrite app_nil_r, <- firstn_add. f_equal. lia.
Qed.

Lemma concat_chunks :
  concat (map (fun k => firstn (Z.to_nat C)
                          (skipn (k * Z.to_nat C) file_paths))
              (seq 0 (chunk_count file_paths C)))
  = file_paths.
Proof.
  rewrite concat_blocks. apply firstn_all2.
  pose proof chunk_count_bounds as Hb. nia.
Qed.

Lemma block_length (k : nat) :
  (k < chunk_count file_paths C)%nat ->
  length (firstn (Z.to_nat C) (skipn (k * Z.to_nat C) file_paths))
  = if (S k <? chunk_count file_paths C)%nat
    then Z.to_nat C
    else (length file_paths - k * Z.to_nat C)%nat.
Proof.
  intros Hk. pose proof chunk_count_bounds as Hb.
  rewrite length_firstn, length_skipn.
  destruct (Nat.ltb_spec (S k) (chunk_count file_paths C)) as [Hlt|Hge]; nia.
Qed.

End Chunks.

(* ================================================================== *)
(** ** Album uploads *)

(** [upload_file] never sleeps. *)
Lemma upload_file_no_sleep (E : env) (self : CatboxAsyncUploader)
  (input : FilePathOrBytes) (timeout : Z) (file_name : option string)
  (h : history) :
  sleeps (fst (upload_file E self input timeout file_name h)) = sleeps h.
Proof.
  unfold upload_file, try_except, bind, _check_userhash_value,
         _prepare_content, _get_content, post, emit, lift, ret, raise.
  destruct (userhash self); [|reflexivity].
  destruct file_name, input; simpl; try reflexivity;
    try (destruct (fs E _); simpl; [|reflexivity]);
    destruct (net E _ _) as [status text|e]; simpl;
    try destruct (status =? 200); reflexivity.
Qed.

Section Gather.

Context {A B : Type}.
Variable upload : A -> M B.
Variable result_of : A -> B.

(** When every coroutine of a chunk succeeds, [gather] returns their
    results in the order of the chunk. *)
Lemma gather_all_ok (chunk : list A) :
  (forall p h, In p chunk ->
     exists h', upload p h = (h', Ok (result_of p))
                /\ sleeps h' = sleeps h) ->
  forall h, exists h',
    gather (map upload chunk) h = (h', Ok (map result_of chunk))
    /\ sleeps h' = sleeps h.
Proof.
  induction chunk as [|p chunk IH]; intros Hok h.
  - exists h. split; reflexivity.
  - destruct (Hok p h (or_introl eq_refl)) as (h1 & Hp & Hs1).
    destruct (IH (fun q k Hq => Hok q k (or_intror Hq)) h1)
      as (h2 & Hrest & Hs2).
    exists h2. simpl. rewrite Hp, Hrest. split; [reflexivity|].
    rewrite Hs2. exact Hs1.
Qed.

End Gather.

(** When every upload succeeds, the loop over the chunks extends
    [uploaded_links] by the results in order and sleeps once per chunk. *)
Lemma upload_chunks_all_ok (upload : string -> M string)
  (url_of : string -> string) (time_sleep : Q) (cs : list (list string)) :
  (forall p h, In p (concat cs) ->
     exists h', upload p h = (h', Ok (url_of p)) /\ sleeps h' = sleeps h) ->
  forall uploaded_links h, exists h',
    upload_chunks upload time_sleep cs uploaded_links h
    = (h', Ok (uploaded_links ++ map url_of (concat cs))%list)
    /\ sleeps h' = (repeat time_sleep (length cs) ++ sleeps h)%list.
Proof.
  induction cs as [|chunk cs IH]; intros Hok acc h.
  - exists h. simpl. rewrite app_nil_r. split; reflexivity.
  - simpl in Hok.
    destruct (gather_all_ok upload url_of chunk
                (fun p k Hp => Hok p k (in_or_app _ _ _ (or_introl Hp))) h)
      as (h1 & Hg & Hs1).
    destruct (IH (fun p k Hp => Hok p k (in_or_app _ _ _ (or_intror Hp)))
                 (acc ++ map url_of chunk)%list (Sleep time_sleep :: h1))
      as (h2 & Hrest & Hs2).
    exists h2. simpl. unfold bind at 1. rewrite Hg.
    unfold bind, emit. rewrite Hrest.
    split.
    + rewrite map_app, app_assoc. reflexivity.
    + rewrite Hs2. simpl. rewrite Hs1.
      change (time_sleep :: sleeps h)%list
        with (repeat time_sleep 1 ++ sleeps h)%list.
      rewrite app_assoc, <- repeat_app.
      replace (length cs + 1)%nat with (S (length cs)) by lia. reflexivity.
Qed.

(** C1.  For every list of paths and every chunk size [C >= 1],
    [upload_album] cuts the list into [ceil(N / C)] chunks: their
    concatenation is the input, every chunk but the last has [C] paths
    and every chunk has between 1 and [C]; and when every [upload_file]
    of a path succeeds with the URL of that path, the call returns the
    URLs of the paths in input order (so a list of length [N] whose i-th
    element belongs to the i-th path), having slept once per chunk. *)
Theorem upload_album_chunks_and_order
  (E : env) (self : CatboxAsyncUploader) (file_paths : list string)
  (timeout C : Z) (time_sleep : Q) (url_of : string -> string) :
  1 <= C ->
  (forall p h, In p file_paths ->
     exists h', upload_file E self (PathStr p) timeout None h
                = (h', Ok (url_of p))) ->
  let N := Z.of_nat (length file_paths) in
  exists cs,
    chunks file_paths C = Ok cs
    /\ Z.of_nat (length cs) = (N + C - 1) / C
    /\ (Z.of_nat (length cs) - 1) * C < N <= Z.of_nat (length cs) * C
    /\ concat cs = file_paths
    /\ (forall k, (S k < length cs)%nat -> Z.of_nat (length (nth k cs [])) = C)
    /\ (forall chunk, In chunk cs -> 1 <= Z.of_nat (length chunk) <= C)
    /\ forall h, exists h' links,
         upload_album E self file_paths timeout C time_sleep h = (h', Ok links)
         /\ links = map url_of file_paths
         /\ length links = length file_paths
         /\ (forall i p, nth_error file_paths i = Some p ->
                         nth_error links i = Some (url_of p))
         /\ sleeps h' = (repeat time_sleep (length cs) ++ sleeps h)%list.
Proof.
  intros HC Hok N.
  pose proof (chunks_blocks file_paths C HC) as Hcs.
  pose proof (chunk_count_bounds file_paths C HC) as Hb.
  pose proof (concat_chunks file_paths C HC) as Hcat.
  pose proof (block_length file_paths C HC) as Hlen.
  cbv zeta in Hcs, Hb, Hcat, Hlen.
  set (c := Z.to_nat C) in *.
  set (n := chunk_count file_paths C) in *.
  set (blocks := map _ (seq 0 n)) in *.
  assert (Hn : length blocks = n)
    by (subst blocks; rewrite length_map, length_seq; reflexivity).
  assert (Hnth : forall k, (k < n)%nat ->
            nth k blocks []
            = firstn c (skipn (k * c) file_paths)).
  { intros k Hk. subst blocks.
    rewrite (nth_indep _ [] (firstn c (skipn (0 * c) file_paths)))
      by (rewrite length_map, length_seq; exact Hk).
    rewrite (map_nth (fun k => firstn c (skipn (k * c) file_paths))).
    rewrite seq_nth by exact Hk. reflexivity. }
  exists blocks. rewrite Hn. fold N in Hb.
  split; [exact Hcs|].
  split.
  { apply Z.div_unique with (r := N + C - 1 - C * Z.of_nat n); lia. }
  split; [exact Hb|].
  split; [exact Hcat|].
  split.
  { intros k Hk. rewrite Hnth by lia. rewrite Hlen by lia.
    destruct (Nat.ltb_spec (S k) n); lia. }
  split.
  { intros chunk Hin. subst blocks.
    apply in_map_iff in Hin. destruct Hin as (k & <- & Hk).
    apply in_seq in Hk. rewrite Hlen by lia.
    destruct (Nat.ltb_spec (S k) n); subst N; nia. }
  intros h.
  destruct (upload_chunks_all_ok
              (fun file_path => upload_file E self (PathStr file_path) timeout None)
              url_of time_sleep blocks) with (uploaded_links := @nil string)
                                             (h := h)
    as (h' & Hrun & Hsl).
  { intros p k Hp. rewrite Hcat in Hp.
    destruct (Hok p k Hp) as (k' & Hk').
    exists k'. split; [exact Hk'|].
    pose proof (upload_file_no_sleep E self (PathStr p) timeout None k) as Hns.
    rewrite Hk' in Hns. exact Hns. }
  exists h', (map url_of file_paths).
  split.
  { unfold upload_album, try_except, bind, lift. rewrite Hcs.
    rewrite Hrun, Hcat. reflexivity. }
  split; [reflexivity|].
  split; [apply length_map|].
  split; [|rewrite <- Hn; exact Hsl].
  intros i p Hi. apply map_nth_error. exact Hi.
Qed.

Lemma upload_album_chunks_and_order_witness :
  1 <= 2
  /\ (forall p h, In p Sample.three_paths ->
        exists h', upload_file Sample.hosting Sample.member (PathStr p) 30 None h
                   = (h', Ok (Sample.hosted p)))
  /\ exists cs,
       chunks Sample.three_paths 2 = Ok cs
       /\ Z.of_nat (length cs) = 2
       /\ concat cs = Sample.three_paths
       /\ forall h, exists h' links,
            upload_album Sample.hosting Sample.member Sample.three_paths
              30 2 (3 # 2) h
            = (h', Ok links)
            /\ links = map Sample.hosted Sample.three_paths.
Proof.
  assert (HC : 1 <= 2) by (intros Hgt; discriminate Hgt).
  assert (Hok : forall p h, In p Sample.three_paths ->
            exists h', upload_file Sample.hosting Sample.member (PathStr p)
                         30 None h = (h', Ok (Sample.hosted p))).
  { intros p h [<-|[<-|[<-|[]]]]; eexists; reflexivity. }
  split; [exact HC|]. split; [exact Hok|].
  destruct (upload_album_chunks_and_order Sample.hosting Sample.member
              Sample.three_paths 30 2 (3 # 2) Sample.hosted HC Hok)
    as (cs & Hcs & Hceil & _ & Hcat & _ & _ & Hrun).
  exists cs. split; [exact Hcs|]. split; [exact Hceil|]. split; [exact Hcat|].
  intros h. destruct (Hrun h) as (h' & links & Hr & Hl & _).
  exists h', links. split; [exact Hr | exact Hl].
Defined.

(** [upload_to_litterbox] never sleeps. *)
Lemma upload_to_litterbox_no_sleep (E : env) (self : CatboxAsyncUploader)
  (input : FilePathOrBytes) (file_name : option string)
  (duration : LitterboxDuration) (timeout : Z) (h : history) :
  sleeps (fst (upload_to_litterbox E self input file_name duration timeout h))
  = sleeps h.
Proof.
  unfold upload_to_litterbox, try_except, bind, _get_content, post, emit,
         lift, ret, raise.
  destruct input; simpl; try reflexivity;
    try (destruct (fs E _); simpl; [|reflexivity]);
    destruct (net E _ _) as [status text|e]; simpl;
    try destruct (status =? 200); reflexivity.
Qed.

(** X23.  The temporary album upload has the same shape as
    [upload_album]: for a chunk size [C >= 1] and uploads that all
    succeed, it returns the URLs of the paths in input order. *)
Lemma upload_album_to_litterbox_order
  (E : env) (self : CatboxAsyncUploader) (file_paths : list string)
  (timeout C : Z) (duration : LitterboxDuration) (time_sleep : Q)
  (url_of : string -> string) :
  1 <= C ->
  (forall p h, In p file_paths ->
     exists h', upload_to_litterbox E self (PathStr p) None duration timeout h
                = (h', Ok (url_of p))) ->
  forall h, exists h',
    upload_album_to_litterbox E self file_paths timeout duration C time_sleep h
    = (h', Ok (map url_of file_paths)).
Proof.
  intros HC Hok h.
  pose proof (chunks_blocks file_paths C HC) as Hcs.
  pose proof (concat_chunks file_paths C HC) as Hcat.
  cbv zeta in Hcs, Hcat.
  set (blocks := map _ (seq 0 _)) in *.
  destruct (upload_chunks_all_ok
              (fun file_path =>
                 upload_to_litterbox E self (PathStr file_path) None duration
                   timeout)
              url_of time_sleep blocks) with (uploaded_links := @nil string)
                                             (h := h)
    as (h' & Hrun & _).
  { intros p k Hp. rewrite Hcat in Hp.
    destruct (Hok p k Hp) as (k' & Hk').
    exists k'. split; [exact Hk'|].
    pose proof (upload_to_litterbox_no_sleep E self (PathStr p) None duration
                  timeout k) as Hns.
    rewrite Hk' in Hns. exact Hns. }
  exists h'.
  unfold upload_album_to_litterbox, try_except, bind, lift. rewrite Hcs.
  rewrite Hrun, Hcat. reflexivity.
Qed.

(* ================================================================== *)
(** ** More on shortcodes and file names *)

Lemma startswith_app_r (s p t : string) :
  PyStr.startswith s p = true -> PyStr.startswith (s ++ t) p = true.
Proof.
  unfold PyStr.startswith. revert s.
  induction p as [|a p IH]; intros s H.
  - destruct (s ++ t); reflexivity.
  - destruct s as [|b s]; simpl in *; [discriminate|].
    destruct (ascii_dec a b); [apply IH; exact H | discriminate].
Qed.

Lemma string_app_assoc (a b c : string) : (a ++ b) ++ c = a ++ (b ++ c).
Proof.
  induction a as [|x a IH]; simpl; [reflexivity|]. rewrite IH. reflexivity.
Qed.

Lemma startswith_refl (p : string) : PyStr.startswith p p = true.
Proof.
  unfold PyStr.startswith. induction p as [|a p IH]; simpl; [reflexivity|].
  destruct (ascii_dec a a); [exact IH | congruence].
Qed.

Lemma after_last_app_sep (sep : ascii) (p name : string) :
  PyStr.contains sep name = false ->
  PyStr.after_last sep (p ++ String sep name) = name.
Proof.
  intros Hn. induction p as [|a p IH]; simpl.
  - rewrite Hn, Ascii.eqb_refl. reflexivity.
  - rewrite contains_app. simpl. rewrite Ascii.eqb_refl, orb_true_r.
    exact IH.
Qed.

(** What follows the last separator is a part of the string: a character
    of it is a character of the string. *)
Lemma contains_after_last (c sep : ascii) (s : string) :
  PyStr.contains c s = false ->
  PyStr.contains c (PyStr.after_last sep s) = false.
Proof.
  intros Hc. destruct (PyStr.contains sep s) eqn:Hs.
  - destruct (after_last_decompose sep s Hs) as [p Hp].
    rewrite Hp, contains_app in Hc. apply orb_false_iff in Hc.
    destruct Hc as [_ Hc]. simpl in Hc. apply orb_false_iff in Hc.
    apply Hc.
  - rewrite after_last_without_sep by exact Hs. exact Hc.
Qed.

(** X1.  Appending a slash and a slash-free name to an url that starts
    with a known prefix, and extracting the shortcode, gives the name
    back; in particular the hosted URL of a file name and the URL of an
    album code give the name and the code, and an url that ends with a
    slash gives the empty string. *)
Theorem shortcode_of_appended_name (url name : string) :
  PyStr.startswith url file_url || PyStr.startswith url album_url = true ->
  PyStr.contains slash name = false ->
  get_shortcode_from_url (url ++ String slash name) = name
  /\ get_shortcode_from_url (file_url ++ String slash name) = name
  /\ get_shortcode_from_url (album_url ++ String slash name) = name
  /\ get_shortcode_from_url (url ++ String slash EmptyString) = EmptyString.
Proof.
  intros Hm Hn.
  assert (Hgen : forall u n,
            PyStr.startswith u file_url || PyStr.startswith u album_url = true ->
            PyStr.contains slash n = false ->
            get_shortcode_from_url (u ++ String slash n) = n).
  { intros u n Hu Hsl. unfold get_shortcode_from_url.
    apply orb_true_iff in Hu.
    assert (Hu' : PyStr.startswith (u ++ String slash n) file_url
                  || PyStr.startswith (u ++ String slash n) album_url = true).
    { apply orb_true_iff.
      destruct Hu as [Hu|Hu]; [left|right]; apply startswith_app_r, Hu. }
    rewrite Hu', last_item_split. apply after_last_app_sep, Hsl. }
  split; [apply Hgen; assumption|].
  split; [apply Hgen; [|exact Hn]; rewrite startswith_refl; reflexivity|].
  split; [apply Hgen; [|exact Hn]; rewrite startswith_refl; apply orb_true_r|].
  apply Hgen; [exact Hm|reflexivity].
Qed.

Lemma shortcode_of_appended_name_witness :
  get_shortcode_from_url ("https://files.catbox.moe/sub" ++ String slash "ab12cd.png")
  = "ab12cd.png".
Proof.
  apply (shortcode_of_appended_name "https://files.catbox.moe/sub" "ab12cd.png");
    reflexivity.
Defined.

(** X2.  The shortcode is always a final part of the url: the url is some
    text followed by the result, whether a prefix matched or not. *)
Theorem shortcode_is_suffix (url : string) :
  exists p, url = p ++ get_shortcode_from_url url.
Proof.
  unfold get_shortcode_from_url.
  destruct (PyStr.startswith url file_url || PyStr.startswith url album_url)
    eqn:Hm.
  - rewrite last_item_split.
    destruct (after_last_decompose slash url (known_prefix_has_slash url Hm))
      as [p Hp].
    exists (p ++ String slash EmptyString).
    rewrite string_app_assoc. exact Hp.
  - exists EmptyString. reflexivity.
Qed.

(** X3.  A text without a slash (a bare shortcode or file name) is
    returned as it is. *)
Theorem shortcode_of_bare_name (s : string) :
  PyStr.contains slash s = false -> get_shortcode_from_url s = s.
Proof.
  intros Hs. unfold get_shortcode_from_url.
  destruct (PyStr.startswith s file_url || PyStr.startswith s album_url)
    eqn:Hm; [|reflexivity].
  apply known_prefix_has_slash in Hm. rewrite Hs in Hm. discriminate.
Qed.

Lemma shortcode_of_bare_name_witness :
  get_shortcode_from_url "ab12cd.png" = "ab12cd.png".
Proof. apply (shortcode_of_bare_name "ab12cd.png"). reflexivity. Defined.

Lemma replace_no_old (a b : ascii) (s : string) :
  a <> b -> PyStr.contains a (PyStr.replace a b s) = false.
Proof.
  intros Hab. induction s as [|c s IH]; [reflexivity|].
  simpl. rewrite IH, orb_false_r.
  destruct (Ascii.eqb c a) eqn:Hc.
  - apply Ascii.eqb_neq. congruence.
  - exact Hc.
Qed.

Lemma replace_app (a b : ascii) (s t : string) :
  PyStr.replace a b (s ++ t) = PyStr.replace a b s ++ PyStr.replace a b t.
Proof.
  induction s as [|c s IH]; simpl; [reflexivity|]. rewrite IH. reflexivity.
Qed.

Lemma replace_absent (a b : ascii) (s : string) :
  PyStr.contains a s = false -> PyStr.replace a b s = s.
Proof.
  induction s as [|c s IH]; simpl; intros H; [reflexivity|].
  apply orb_false_iff in H. destruct H as [Hc Hs].
  rewrite Hc, (IH Hs). reflexivity.
Qed.

(** X4.  For a path without an explicit file name [_prepare_content]
    never fails, leaves the content and the history alone, and infers a
    name that has neither a slash nor a backslash. *)
Theorem inferred_file_name_has_no_separator (path : string) (h : history) :
  exists name,
    _prepare_content (PathStr path) None h = (h, Ok (Some name, PathStr path))
    /\ PyStr.contains slash name = false
    /\ PyStr.contains backslash name = false.
Proof.
  eexists. split; [reflexivity|].
  rewrite last_item_split. split.
  - apply after_last_no_sep.
  - apply contains_after_last, replace_no_old. discriminate.
Qed.

(** X5.  The inferred name of a path that ends in a separator (slash or
    backslash) and a separator-free name is that name, whatever the
    directory part is and whichever separators it uses. *)
Theorem inferred_file_name_of_joined_path (dir name : string) (h : history) :
  PyStr.contains slash name = false ->
  PyStr.contains backslash name = false ->
  _prepare_content (PathStr (dir ++ String slash name)) None h
  = (h, Ok (Some name, PathStr (dir ++ String slash name)))
  /\ _prepare_content (PathStr (dir ++ String backslash name)) None h
     = (h, Ok (Some name, PathStr (dir ++ String backslash name))).
Proof.
  intros Hs Hb.
  unfold _prepare_content, ret.
  rewrite !last_item_split, !replace_app. simpl.
  rewrite (replace_absent backslash slash name Hb).
  rewrite (after_last_app_sep slash _ name Hs).
  split; reflexivity.
Qed.

Lemma inferred_file_name_of_joined_path_witness :
  _prepare_content (PathStr ("C:\photos/2024" ++ String backslash "cat.png"))
    None []
  = ([], Ok (Some "cat.png",
             PathStr ("C:\photos/2024" ++ String backslash "cat.png"))).
Proof.
  apply (inferred_file_name_of_joined_path "C:\photos/2024" "cat.png" []);
    reflexivity.
Defined.

(* ================================================================== *)
(** ** Trimming *)








(* ================================================================== *)
(** ** What the [except] clauses guarantee *)

Lemma try_except_raise_inv {A} (body : M A) (hs : handlers)
  (h h' : history) (e' : exc) :
  try_except body hs h = (h', Raise e') ->
  exists e, body h = (h', Raise e) /\ e' = handle hs e.
Proof.
  unfold try_except. destruct (body h) as [h1 [a|e]]; intros Heq;
    inversion Heq; subst. exists e. split; reflexivity.
Qed.

(** The exception that leaves a [try] is the one raised inside when no
    clause matches it, and the one a matching clause raises otherwise. *)
Lemma handle_cases (hs : handlers) (e : exc) :
  (handle hs e = e
   /\ forall c body, In (c, body) hs -> isinstance e c = false)
  \/ exists c body, In (c, body) hs /\ handle hs e = body e.
Proof.
  induction hs as [|[c body] hs IH]; simpl.
  - left. split; [reflexivity|]. intros c body [].
  - destruct (isinstance e c) eqn:Hc.
    + right. exists c, body. split; [left; reflexivity | reflexivity].
    + destruct IH as [[He Hno]|(c' & body' & Hin & He)].
      * left. split; [exact He|].
        intros c' body' [Heq|Hin]; [inversion Heq; subst; exact Hc|].
        exact (Hno c' body' Hin).
      * right. exists c', body'. split; [right; exact Hin | exact He].
Qed.

(** A class named by a clause never leaves the [try], as long as the
    clauses themselves raise none of its instances. *)
Lemma try_except_never {A} (body : M A) (hs : handlers) (d : exc_class)
  (h h' : history) (e' : exc) :
  (exists b, In (d, b) hs) ->
  (forall c b x, In (c, b) hs -> isinstance (b x) d = false) ->
  try_except body hs h = (h', Raise e') ->
  isinstance e' d = false.
Proof.
  intros [b Hd] Hbodies Hrun.
  destruct (try_except_raise_inv body hs h h' e' Hrun) as (e & _ & ->).
  destruct (handle_cases hs e) as [[-> Hno]|(c & b' & Hin & ->)].
  - exact (Hno d b Hd).
  - exact (Hbodies c b' e Hin).
Qed.

Ltac clause_bodies :=
  let c := fresh in let b := fresh in let x := fresh in let Hin := fresh in
  intros c b x Hin; simpl in Hin;
  repeat (destruct Hin as [Hin|Hin]; [inversion Hin; reflexivity|]);
  destruct Hin.

(** X7.  Neither [asyncio.TimeoutError] nor [aiohttp.ClientError] (nor a
    subclass of either) ever leaves [upload_file], [upload_to_litterbox],
    [upload_album] or [upload_album_to_litterbox]. *)
Theorem uploads_never_raise_library_errors
  (E : env) (self : CatboxAsyncUploader) (input : FilePathOrBytes)
  (file_paths : list string) (timeout chunk_size : Z)
  (file_name : option string) (duration : LitterboxDuration) (time_sleep : Q)
  (h h' : history) (e : exc) :
  upload_file E self input timeout file_name h = (h', Raise e)
  \/ upload_to_litterbox E self input file_name duration timeout h
     = (h', Raise e)
  \/ upload_album E self file_paths timeout chunk_size time_sleep h
     = (h', Raise e)
  \/ upload_album_to_litterbox E self file_paths timeout duration chunk_size
       time_sleep h = (h', Raise e) ->
  isinstance e AsyncioTimeoutError = false
  /\ isinstance e ClientError = false.
Proof.
  intros [Hrun|[Hrun|[Hrun|Hrun]]];
    unfold upload_file, upload_to_litterbox, upload_album,
           upload_album_to_litterbox, album_handlers in Hrun;
    (split; eapply try_except_never; try exact Hrun;
     [eexists; simpl; eauto 6 | clause_bodies
     |eexists; simpl; eauto 6 | clause_bodies]).
Qed.

Lemma uploads_never_raise_library_errors_witness :
  isinstance (mkExc CatboxTimeoutError
                "Upload request timed out after 30 seconds.")
    AsyncioTimeoutError = false
  /\ isinstance (mkExc CatboxTimeoutError
                   "Upload request timed out after 30 seconds.")
       ClientError = false.
Proof.
  apply (uploads_never_raise_library_errors Sample.unreachable Sample.member
           (RawBytes Sample.some_bytes) [] 30 50 (Some "cat.png") H1 (3 # 2) []
           [Post (upload_file_request "0123456789abcdef" Sample.some_bytes
                    (Some "cat.png") 30)]).
  left. reflexivity.
Defined.

(** X8.  No [aiohttp.ClientError] (nor a subclass) ever leaves
    [delete_files], [create_album], [edit_album] or [delete_album]. *)
Theorem management_never_raises_client_error
  (E : env) (self : CatboxAsyncUploader) (files : list string)
  (shortcode title description : string) (timeout : Z)
  (h h' : history) (e : exc) :
  delete_files E self files timeout h = (h', Raise e)
  \/ create_album E self files title description h = (h', Raise e)
  \/ edit_album E self shortcode files title description h = (h', Raise e)
  \/ delete_album E self shortcode h = (h', Raise e) ->
  isinstance e ClientError = false.
Proof.
  intros [Hrun|[Hrun|[Hrun|Hrun]]];
    unfold delete_files, create_album, edit_album, delete_album in Hrun;
    (eapply try_except_never; try exact Hrun;
     [eexists; simpl; eauto | clause_bodies]).
Qed.

Lemma management_never_raises_client_error_witness :
  isinstance (mkExc CatboxError "Failed to delete album: 500") ClientError
  = false.
Proof.
  apply (management_never_raises_client_error Sample.broken Sample.member
           [] "xyz789" "cats" "" 30 []
           [Post (mkRequest api_url None
                    [ text_field "reqtype" (VStr "deletealbum");
                      text_field "userhash" (VStr "0123456789abcdef");
                      text_field "short" (VStr "xyz789") ])]).
  right. right. right. reflexivity.
Defined.

(* ================================================================== *)
(** ** Answers of the service *)

Section Answers.

Variable E : env.
Variables (status : Z) (text : string).
Hypothesis answers : forall h r, net E h r = Response status text.

Variable uh : string.




End Answers.




(* ================================================================== *)
(** ** Failures of the network and of the file system *)

(** X12.  When the request of an upload of a readable path fails with an
    [asyncio.TimeoutError] or an [aiohttp.ClientError], [upload_file] and
    [upload_to_litterbox] raise an error of the taxonomy.  A timeout wins
    over every other clause, also for an error that is a connection error
    as well; a response error becomes the generic [CatboxError] in
    [upload_file] and [CatboxHTTPError] in [upload_to_litterbox]. *)
Theorem network_failures_are_translated
  (E : env) (e : exc) (self : CatboxAsyncUploader) (uh path : string)
  (data : list Byte.byte) (file_name : option string)
  (duration : LitterboxDuration) (timeout : Z) (h : history) :
  (forall k r, net E k r = NetRaise e) ->
  fs E path = Ok data ->
  isinstance e AsyncioTimeoutError || isinstance e ClientError = true ->
  exists e1 e2,
    snd (upload_file E (mkClient (Some uh)) (PathStr path) timeout file_name h)
    = Raise e1
    /\ snd (upload_to_litterbox E self (PathStr path) file_name duration
              timeout h) = Raise e2
    /\ in_taxonomy e1 = true /\ in_taxonomy e2 = true
    /\ (isinstance e AsyncioTimeoutError = true ->
        e1 = mkExc CatboxTimeoutError
               ("Upload request timed out after " ++ PyStr.of_int timeout
                ++ " seconds.")
        /\ e2 = mkExc CatboxTimeoutError
                  ("Upload to Litterbox timed out after "
                   ++ PyStr.of_int timeout ++ " seconds."))
    /\ (isinstance e AsyncioTimeoutError = false ->
        isinstance e ClientConnectionError = false ->
        isinstance e ClientResponseError = true ->
        e1 = mkExc CatboxError ("An error occurred: " ++ exc_msg e)
        /\ e2 = mkExc CatboxHTTPError ("HTTP error occurred: " ++ exc_msg e)).
Proof.
  intros Hnet Hfs Hlib.
  unfold upload_file, upload_to_litterbox, try_except, bind,
         _check_userhash_value, _prepare_content, _get_content, post, emit,
         lift, ret, raise.
  destruct file_name as [given|]; simpl; rewrite Hfs; simpl;
    rewrite !Hnet; simpl;
    destruct (isinstance e AsyncioTimeoutError) eqn:Ht;
    destruct (isinstance e ClientConnectionError) eqn:Hc;
    destruct (isinstance e ClientResponseError) eqn:Hr;
    destruct (isinstance e ClientError) eqn:Hce;
    try discriminate Hlib;
    do 2 eexists; repeat split; try reflexivity; intros; discriminate.
Qed.

Lemma network_failures_are_translated_witness :
  exists e1 e2,
    snd (upload_file Sample.offline (mkClient (Some "0123456789abcdef"))
           (PathStr "cat.png") 30 None []) = Raise e1
    /\ snd (upload_to_litterbox Sample.offline Sample.anonymous
              (PathStr "cat.png") None H1 30 []) = Raise e2
    /\ in_taxonomy e1 = true /\ in_taxonomy e2 = true.
Proof.
  destruct (network_failures_are_translated Sample.offline
              (mkExc ClientConnectionError
                 "Cannot connect to host catbox.moe:443")
              Sample.anonymous "0123456789abcdef" "cat.png" Sample.some_bytes
              None H1 30 [] (fun _ _ => eq_refl) eq_refl eq_refl)
    as (e1 & e2 & H1' & H2' & H3' & H4' & _).
  exists e1, e2. repeat split; assumption.
Defined.

(** X13.  When the path cannot be opened, an upload posts nothing: the
    history gains the read attempt only, and the error of the file system
    reaches the caller as it is unless it is a timeout or a client
    error. *)
Theorem unreadable_path_posts_nothing
  (E : env) (e : exc) (self : CatboxAsyncUploader) (uh path : string)
  (file_name : option string) (duration : LitterboxDuration) (timeout : Z)
  (h : history) :
  fs E path = Raise e ->
  exists e1 e2,
    upload_file E (mkClient (Some uh)) (PathStr path) timeout file_name h
    = (ReadFile path :: h, Raise e1)
    /\ upload_to_litterbox E self (PathStr path) file_name duration timeout h
       = (ReadFile path :: h, Raise e2)
    /\ requests (ReadFile path :: h) = requests h
    /\ (isinstance e AsyncioTimeoutError = false ->
        isinstance e ClientError = false -> e1 = e /\ e2 = e).
Proof.
  intros Hfs.
  unfold upload_file, upload_to_litterbox, try_except, bind,
         _check_userhash_value, _prepare_content, _get_content, post, emit,
         lift, ret, raise.
  destruct file_name as [given|]; simpl; rewrite Hfs; simpl;
    do 2 eexists; (split; [reflexivity|]); (split; [reflexivity|]);
    (split; [reflexivity|]); intros Ht Hce;
    assert (Hc : isinstance e ClientConnectionError = false)
      by (destruct e as [[] m]; simpl in *; try reflexivity; discriminate);
    assert (Hr : isinstance e ClientResponseError = false)
      by (destruct e as [[] m]; simpl in *; try reflexivity; discriminate);
    rewrite Ht, Hc, ?Hr, Hce; split; reflexivity.
Qed.

Lemma unreadable_path_posts_nothing_witness :
  exists e1 e2,
    upload_file Sample.no_files (mkClient (Some "0123456789abcdef"))
      (PathStr "cat.png") 30 None []
    = ([ReadFile "cat.png"], Raise e1)
    /\ upload_to_litterbox Sample.no_files Sample.anonymous
         (PathStr "cat.png") None H1 30 []
       = ([ReadFile "cat.png"], Raise e2).
Proof.
  destruct (unreadable_path_posts_nothing Sample.no_files
              (mkExc PyFileNotFoundError
                 "[Errno 2] No such file or directory: 'cat.png'")
              Sample.anonymous "0123456789abcdef" "cat.png" None H1 30 []
              eq_refl)
    as (e1 & e2 & H1' & H2' & _).
  exists e1, e2. split; assumption.
Defined.

(* ================================================================== *)
(** ** Album uploads: chunk sizes that are not positive *)

(** X14.  With a negative chunk size the list of chunks is empty whatever
    the paths are: both album uploads return the empty list and touch
    nothing, no file being uploaded. *)
Theorem negative_chunk_size_uploads_nothing
  (E : env) (self : CatboxAsyncUploader) (file_paths : list string)
  (timeout chunk_size : Z) (duration : LitterboxDuration) (time_sleep : Q)
  (h : history) :
  chunk_size < 0 ->
  chunks file_paths chunk_size = Ok []
  /\ upload_album E self file_paths timeout chunk_size time_sleep h = (h, Ok [])
  /\ upload_album_to_litterbox E self file_paths timeout duration chunk_size
       time_sleep h = (h, Ok []).
Proof.
  intros Hneg.
  assert (Hcs : chunks file_paths chunk_size = Ok []).
  { unfold chunks, py_range, range_length.
    destruct (Z.eqb_spec chunk_size 0) as [?|_]; [lia|].
    destruct (Z.ltb_spec 0 chunk_size) as [?|_]; [lia|].
    destruct (Z.ltb_spec (Z.of_nat (length file_paths)) 0) as [?|_]; [lia|].
    reflexivity. }
  unfold upload_album, upload_album_to_litterbox, try_except, bind, lift.
  rewrite Hcs. repeat split; reflexivity.
Qed.

Lemma negative_chunk_size_uploads_nothing_witness :
  upload_album Sample.hosting Sample.member Sample.three_paths 30 (-1)
    (3 # 2) [] = ([], Ok []).
Proof.
  apply (negative_chunk_size_uploads_nothing Sample.hosting Sample.member
           Sample.three_paths 30 (-1) H1 (3 # 2) []).
  reflexivity.
Defined.

(** X15.  With chunk size zero both album uploads raise [ValueError]
    (from [range]) for every list of paths, before anything is read,
    posted or slept; the error is outside the taxonomy. *)
Theorem zero_chunk_size_raises_value_error
  (E : env) (self : CatboxAsyncUploader) (file_paths : list string)
  (timeout : Z) (duration : LitterboxDuration) (time_sleep : Q) (h : history) :
  let err := mkExc PyValueError "range() arg 3 must not be zero" in
  upload_album E self file_paths timeout 0 time_sleep h = (h, Raise err)
  /\ upload_album_to_litterbox E self file_paths timeout duration 0
       time_sleep h = (h, Raise err)
  /\ in_taxonomy err = false.
Proof. repeat split; reflexivity. Qed.

(* ================================================================== *)
(** ** Album uploads: what a run that returns, or raises, went through *)

Lemma not_client_error (e : exc) :
  isinstance e ClientError = false ->
  isinstance e ClientConnectionError = false
  /\ isinstance e ClientResponseError = false.
Proof.
  destruct e as [[] m]; simpl; intros H; split; try reflexivity;
    discriminate H.
Qed.

Lemma album_handlers_pass (timeout : Z) (e : exc) :
  isinstance e AsyncioTimeoutError = false ->
  isinstance e ClientError = false ->
  handle (album_handlers timeout) e = e.
Proof.
  intros Ht Hce. destruct (not_client_error e Hce) as [Hc Hr].
  simpl. rewrite Ht, Hc, Hr, Hce. reflexivity.
Qed.

Lemma upload_file_raises_no_library_error
  (E : env) (self : CatboxAsyncUploader) (input : FilePathOrBytes)
  (timeout : Z) (file_name : option string) (h h' : history) (e : exc) :
  upload_file E self input timeout file_name h = (h', Raise e) ->
  isinstance e AsyncioTimeoutError = false /\ isinstance e ClientError = false.
Proof.
  intros Hrun. unfold upload_file in Hrun.
  split; eapply try_except_never; try exact Hrun;
    [eexists; simpl; eauto 6 | clause_bodies
    |eexists; simpl; eauto 6 | clause_bodies].
Qed.

Lemma upload_to_litterbox_raises_no_library_error
  (E : env) (self : CatboxAsyncUploader) (input : FilePathOrBytes)
  (file_name : option string) (duration : LitterboxDuration) (timeout : Z)
  (h h' : history) (e : exc) :
  upload_to_litterbox E self input file_name duration timeout h
  = (h', Raise e) ->
  isinstance e AsyncioTimeoutError = false /\ isinstance e ClientError = false.
Proof.
  intros Hrun. unfold upload_to_litterbox in Hrun.
  split; eapply try_except_never; try exact Hrun;
    [eexists; simpl; eauto 6 | clause_bodies
    |eexists; simpl; eauto 6 | clause_bodies].
Qed.

(** Every member of a chunk is one of the paths, whatever the chunk size. *)
Lemma chunks_members (file_paths : list string) (chunk_size : Z)
  (cs : list (list string)) (p : string) :
  chunks file_paths chunk_size = Ok cs ->
  In p (concat cs) -> In p file_paths.
Proof.
  unfold chunks. destruct (py_range _ _ _) as [starts|e]; [|discriminate].
  intros Heq Hin. inversion Heq; subst. clear Heq.
  apply in_concat in Hin. destruct Hin as (chunk & Hchunk & Hp).
  apply in_map_iff in Hchunk. destruct Hchunk as (i & <- & _).
  unfold py_slice in Hp.
  set (a := Z.to_nat _) in Hp. set (b := Z.to_nat _) in Hp.
  rewrite <- (firstn_skipn b file_paths). apply in_or_app. right.
  rewrite <- (firstn_skipn a (skipn b file_paths)). apply in_or_app. left.
  exact Hp.
Qed.

Section Runs.

Variable upload : string -> M string.
Variable time_sleep : Q.

Hypothesis one_request :
  forall p h h' u, upload p h = (h', Ok u) ->
                   length (requests h') = S (length (requests h)).

Lemma gather_raise_inv (chunk : list string) (h h' : history) (e : exc) :
  gather (map upload chunk) h = (h', Raise e) ->
  exists p h1 h2, In p chunk /\ upload p h1 = (h2, Raise e).
Proof.
  revert h. induction chunk as [|p chunk IH]; intros h; simpl.
  - discriminate.
  - destruct (upload p h) as [h1 [a|e0]] eqn:Hp.
    + destruct (gather (map upload chunk) h1) as [h2 [l|e1]] eqn:Hg;
        intros Heq; inversion Heq; subst.
      destruct (IH h1 Hg) as (q & k1 & k2 & Hq & Hrun).
      exists q, k1, k2. split; [right; exact Hq | exact Hrun].
    + intros Heq. inversion Heq; subst.
      exists p, h, h1. split; [left; reflexivity | exact Hp].
  Qed.

Lemma gather_ok_inv (chunk : list string) (h h' : history)
  (links : list string) :
  gather (map upload chunk) h = (h', Ok links) ->
  Forall2 (returned_by upload) chunk links
  /\ length (requests h') = (length chunk + length (requests h))%nat.
Proof.
  revert h links. induction chunk as [|p chunk IH]; intros h links; simpl.
  - intros Heq. inversion Heq; subst. split; [constructor | reflexivity].
  - destruct (upload p h) as [h1 [a|e0]] eqn:Hp; [|discriminate].
    destruct (gather (map upload chunk) h1) as [h2 [l|e1]] eqn:Hg;
      intros Heq; inversion Heq; subst.
    destruct (IH h1 l Hg) as [Hall Hlen].
    split.
    + constructor; [exists h, h1; exact Hp | exact Hall].
    + rewrite Hlen, (one_request p h h1 a Hp). lia.
Qed.

Lemma upload_chunks_raise_inv (cs : list (list string))
  (uploaded_links : list string) (h h' : history) (e : exc) :
  upload_chunks upload time_sleep cs uploaded_links h = (h', Raise e) ->
  exists p h1 h2, In p (concat cs) /\ upload p h1 = (h2, Raise e).
Proof.
  revert uploaded_links h.
  induction cs as [|chunk cs IH]; intros acc h; simpl.
  - discriminate.
  - unfold bind at 1.
    destruct (gather (map upload chunk) h) as [h1 [links|e0]] eqn:Hg.
    + unfold bind, emit. intros Hrest.
      destruct (IH _ _ Hrest) as (p & k1 & k2 & Hp & Hrun).
      exists p, k1, k2. split; [apply in_or_app; right; exact Hp | exact Hrun].
    + intros Heq. inversion Heq; subst.
      destruct (gather_raise_inv chunk h h' e Hg) as (p & k1 & k2 & Hp & Hrun).
      exists p, k1, k2. split; [apply in_or_app; left; exact Hp | exact Hrun].
Qed.

Lemma upload_chunks_ok_inv (cs : list (list string))
  (uploaded_links : list string) (h h' : history) (links : list string) :
  upload_chunks upload time_sleep cs uploaded_links h = (h', Ok links) ->
  exists new,
    links = (uploaded_links ++ new)%list
    /\ Forall2 (returned_by upload) (concat cs) new
    /\ length (requests h')
       = (length (concat cs) + length (requests h))%nat.
Proof.
  revert uploaded_links h.
  induction cs as [|chunk cs IH]; intros acc h; simpl.
  - intros Heq. inversion Heq; subst. exists [].
    rewrite app_nil_r. repeat split; constructor.
  - unfold bind at 1.
    destruct (gather (map upload chunk) h) as [h1 [got|e0]] eqn:Hg;
      [|discriminate].
    unfold bind, emit. intros Hrest.
    destruct (gather_ok_inv chunk h h1 got Hg) as [Hall Hlen].
    destruct (IH _ _ Hrest) as (new & -> & Hnew & Hlen').
    exists (got ++ new)%list. split; [symmetry; apply app_assoc|].
    split; [apply Forall2_app; assumption|].
    rewrite Hlen'. simpl. rewrite Hlen, length_app. lia.
Qed.

End Runs.

Lemma upload_file_ok_one_request
  (E : env) (self : CatboxAsyncUploader) (input : FilePathOrBytes)
  (timeout : Z) (file_name : option string) (h h' : history) (u : string) :
  upload_file E self input timeout file_name h = (h', Ok u) ->
  length (requests h') = S (length (requests h)).
Proof.
  unfold upload_file, try_except, bind, _check_userhash_value,
         _prepare_content, _get_content, post, emit, lift, ret, raise.
  destruct (userhash self); [|discriminate].
  destruct file_name, input; simpl; try discriminate;
    try (destruct (fs E _); simpl; [|discriminate]);
    (destruct (net E _ _) as [status text|e]; simpl; [|discriminate]);
    (destruct (status =? 200); simpl; [|discriminate]);
    intros Heq; inversion Heq; reflexivity.
Qed.

Lemma upload_to_litterbox_ok_one_request
  (E : env) (self : CatboxAsyncUploader) (input : FilePathOrBytes)
  (file_name : option string) (duration : LitterboxDuration) (timeout : Z)
  (h h' : history) (u : string) :
  upload_to_litterbox E self input file_name duration timeout h = (h', Ok u) ->
  length (requests h') = S (length (requests h)).
Proof.
  unfold upload_to_litterbox, try_except, bind, _get_content, post, emit,
         lift, ret, raise.
  destruct input; simpl; try discriminate;
    try (destruct (fs E _); simpl; [|discriminate]);
    (destruct (net E _ _) as [status text|e]; simpl; [|discriminate]);
    (destruct (status =? 200); simpl; [|discriminate]);
    intros Heq; inversion Heq; reflexivity.
Qed.

(** A run of the album loop that returns, for a chunk size [C >= 1]. *)
Lemma album_run_ok (upload : string -> M string) (hs : handlers)
  (file_paths : list string) (C : Z) (time_sleep : Q) (h h' : history)
  (links : list string) :
  (forall p k k' u, upload p k = (k', Ok u) ->
                    length (requests k') = S (length (requests k))) ->
  1 <= C ->
  try_except
    (cs <- lift (chunks file_paths C) ;;
     upload_chunks upload time_sleep cs []) hs h = (h', Ok links) ->
  Forall2 (returned_by upload) file_paths links
  /\ length links = length file_paths
  /\ length (requests h')
     = (length file_paths + length (requests h))%nat.
Proof.
  intros Hone HC. unfold try_except, bind, lift.
  rewrite (chunks_blocks file_paths C HC).
  destruct (upload_chunks _ _ _ _ _) as [h1 [got|e]] eqn:Hrun;
    intros Heq; inversion Heq; subst.
  destruct (upload_chunks_ok_inv upload time_sleep Hone _ _ _ _ _ Hrun)
    as (new & -> & Hall & Hlen).
  rewrite (concat_chunks file_paths C HC) in Hall, Hlen. simpl.
  split; [exact Hall|]. split; [|exact Hlen].
  symmetry. exact (Forall2_length Hall).
Qed.

(** X16.  Whenever [upload_album] returns, for a chunk size [C >= 1], it
    returns one link per path, the i-th link being what [upload_file]
    returned for the i-th path, and it has posted exactly one request per
    path: there is no partial or reordered result. *)
Theorem upload_album_returns_one_link_per_path
  (E : env) (self : CatboxAsyncUploader) (file_paths : list string)
  (timeout C : Z) (time_sleep : Q) (h h' : history) (links : list string) :
  1 <= C ->
  upload_album E self file_paths timeout C time_sleep h = (h', Ok links) ->
  Forall2
    (returned_by (fun p => upload_file E self (PathStr p) timeout None))
    file_paths links
  /\ length links = length file_paths
  /\ length (requests h') = (length file_paths + length (requests h))%nat.
Proof.
  intros HC Hrun. unfold upload_album in Hrun.
  eapply album_run_ok; [|exact HC|exact Hrun].
  intros p k k' u. apply upload_file_ok_one_request.
Qed.

Lemma upload_album_returns_one_link_per_path_witness :
  length (map Sample.hosted Sample.three_paths) = length Sample.three_paths.
Proof.
  eapply (upload_album_returns_one_link_per_path Sample.hosting Sample.member
            Sample.three_paths 30 2 (3 # 2) []).
  - intros Hgt; discriminate Hgt.
  - reflexivity.
Defined.

(** X17.  The same for [upload_album_to_litterbox]: whenever it returns,
    for a chunk size [C >= 1], the i-th link is what [upload_to_litterbox]
    returned for the i-th path and one request per path was posted. *)
Theorem upload_album_to_litterbox_returns_one_link_per_path
  (E : env) (self : CatboxAsyncUploader) (file_paths : list string)
  (timeout C : Z) (duration : LitterboxDuration) (time_sleep : Q)
  (h h' : history) (links : list string) :
  1 <= C ->
  upload_album_to_litterbox E self file_paths timeout duration C time_sleep h
  = (h', Ok links) ->
  Forall2
    (returned_by
       (fun p => upload_to_litterbox E self (PathStr p) None duration timeout))
    file_paths links
  /\ length links = length file_paths
  /\ length (requests h') = (length file_paths + length (requests h))%nat.
Proof.
  intros HC Hrun. unfold upload_album_to_litterbox in Hrun.
  eapply album_run_ok; [|exact HC|exact Hrun].
  intros p k k' u. apply upload_to_litterbox_ok_one_request.
Qed.

Lemma upload_album_to_litterbox_returns_one_link_per_path_witness :
  length (map (fun _ : string => "https://litter.catbox.moe/q1w2e3.png")
            Sample.three_paths)
  = length Sample.three_paths.
Proof.
  eapply (upload_album_to_litterbox_returns_one_link_per_path Sample.litter
            Sample.anonymous Sample.three_paths 30 2 H24 (3 # 2) []).
  - intros Hgt; discriminate Hgt.
  - reflexivity.
Defined.

(** A run of the album loop that raises. *)
Lemma album_run_raise (upload : string -> M string) (timeout : Z)
  (file_paths : list string) (C : Z) (time_sleep : Q) (h h' : history)
  (e : exc) :
  (forall p k k' x, upload p k = (k', Raise x) ->
     isinstance x AsyncioTimeoutError = false
     /\ isinstance x ClientError = false) ->
  try_except
    (cs <- lift (chunks file_paths C) ;;
     upload_chunks upload time_sleep cs []) (album_handlers timeout) h
  = (h', Raise e) ->
  (C = 0 /\ h' = h
   /\ e = mkExc PyValueError "range() arg 3 must not be zero")
  \/ exists p h1 h2, In p file_paths /\ upload p h1 = (h2, Raise e).
Proof.
  intros Hlib Hrun.
  destruct (try_except_raise_inv _ _ _ _ _ Hrun) as (e0 & Hbody & ->).
  unfold bind, lift in Hbody.
  destruct (chunks file_paths C) as [cs|e1] eqn:Hcs.
  - right.
    destruct (upload_chunks_raise_inv upload time_sleep cs [] h h' e0 Hbody)
      as (p & h1 & h2 & Hp & Hup).
    destruct (Hlib p h1 h2 e0 Hup) as [Ht Hce].
    rewrite (album_handlers_pass timeout e0 Ht Hce).
    exists p, h1, h2. split; [|exact Hup].
    exact (chunks_members file_paths C cs p Hcs Hp).
  - left. inversion Hbody; subst. unfold chunks, py_range in Hcs.
    destruct (Z.eqb_spec C 0) as [HC|_]; [|discriminate].
    inversion Hcs; subst. repeat split; reflexivity.
Qed.

(** X18.  An error that leaves an album upload is, unchanged, an error
    that the upload of one of its paths raised ([upload_file] for
    [upload_album], [upload_to_litterbox] for the temporary one); the
    only other error is the [ValueError] of a zero chunk size.  The
    [except] clauses of the album uploads never rewrite an upload error. *)
Theorem album_error_is_an_upload_error
  (E : env) (self : CatboxAsyncUploader) (file_paths : list string)
  (timeout C : Z) (duration : LitterboxDuration) (time_sleep : Q)
  (h h' : history) (e : exc) :
  (upload_album E self file_paths timeout C time_sleep h = (h', Raise e) ->
   (C = 0 /\ h' = h
    /\ e = mkExc PyValueError "range() arg 3 must not be zero")
   \/ exists p h1 h2,
        In p file_paths
        /\ upload_file E self (PathStr p) timeout None h1 = (h2, Raise e))
  /\ (upload_album_to_litterbox E self file_paths timeout duration C
        time_sleep h = (h', Raise e) ->
      (C = 0 /\ h' = h
       /\ e = mkExc PyValueError "range() arg 3 must not be zero")
      \/ exists p h1 h2,
           In p file_paths
           /\ upload_to_litterbox E self (PathStr p) None duration timeout h1
              = (h2, Raise e)).
Proof.
  split; intros Hrun;
    unfold upload_album, upload_album_to_litterbox in Hrun;
    (eapply album_run_raise; [|exact Hrun]); intros p k k' x.
  - apply upload_file_raises_no_library_error.
  - apply upload_to_litterbox_raises_no_library_error.
Qed.

Lemma album_error_is_an_upload_error_witness :
  exists p h1 h2,
    In p Sample.three_paths
    /\ upload_file Sample.broken Sample.member (PathStr p) 30 None h1
       = (h2, Raise (mkExc CatboxError "Failed to upload file to Catbox.")).
Proof.
  destruct (proj1 (album_error_is_an_upload_error Sample.broken Sample.member
                     Sample.three_paths 30 2 H1 (3 # 2) []
                     (fst (upload_album Sample.broken Sample.member
                             Sample.three_paths 30 2 (3 # 2) []))
                     (mkExc CatboxError "Failed to upload file to Catbox."))
              eq_refl)
    as [[Hzero _]|Hex].
  - discriminate Hzero.
  - exact Hex.
Defined.

Lemma upload_file_without_token (E : env) (self : CatboxAsyncUploader)
  (input : FilePathOrBytes) (timeout : Z) (file_name : option string)
  (h : history) :
  userhash self = None ->
  upload_file E self input timeout file_name h = (h, Raise userhash_required).
Proof.
  intros Hnone. unfold upload_file, try_except, bind.
  rewrite (check_userhash_absent self h Hnone). reflexivity.
Qed.

Lemma gather_without_token (E : env) (self : CatboxAsyncUploader)
  (timeout : Z) (chunk : list string) (h : history) :
  userhash self = None ->
  fst (gather (map (fun file_path =>
                      upload_file E self (PathStr file_path) timeout None)
                   chunk) h) = h.
Proof.
  intros Hnone. induction chunk as [|p chunk IH]; [reflexivity|].
  simpl. rewrite (upload_file_without_token E self _ _ _ h Hnone). exact IH.
Qed.

(** X19.  Without a token, [upload_album] of at least one path with a
    chunk size [C >= 1] raises the missing-token error and leaves the
    history as it was: nothing is read, posted or slept.  (The temporary
    album upload needs no token.) *)
Theorem upload_album_without_token
  (E : env) (self : CatboxAsyncUploader) (file_paths : list string)
  (timeout C : Z) (time_sleep : Q) (h : history) :
  userhash self = None ->
  file_paths <> [] ->
  1 <= C ->
  upload_album E self file_paths timeout C time_sleep h
  = (h, Raise userhash_required).
Proof.
  intros Hnone Hne HC.
  unfold upload_album, try_except, bind, lift.
  rewrite (chunks_blocks file_paths C HC).
  pose proof (chunk_count_bounds file_paths C HC) as Hb.
  destruct file_paths as [|x rest]; [congruence|].
  destruct (chunk_count (x :: rest) C) as [|n]; [simpl in Hb; lia|].
  destruct (Z.to_nat C) as [|c] eqn:Hc; [lia|].
  simpl. unfold bind.
  rewrite (upload_file_without_token E self _ _ _ h Hnone).
  rewrite gather_without_token by exact Hnone. reflexivity.
Qed.

Lemma upload_album_without_token_witness :
  upload_album Sample.hosting Sample.anonymous Sample.three_paths 30 2
    (3 # 2) [] = ([], Raise userhash_required).
Proof.
  apply (upload_album_without_token Sample.hosting Sample.anonymous
           Sample.three_paths 30 2 (3 # 2) []).
  - reflexivity.
  - discriminate.
  - intros Hgt; discriminate Hgt.
Defined.

(* ================================================================== *)
(** ** The wire format of names and durations *)

(** X20.  The five retention periods have five different wire strings:
    the [time] field of a temporary upload determines the period. *)
Theorem duration_value_injective (d1 d2 : LitterboxDuration) :
  duration_value d1 = duration_value d2 -> d1 = d2.
Proof. destruct d1, d2; simpl; intros H; try reflexivity; discriminate H. Qed.

Lemma duration_value_injective_witness : H24 = H24.
Proof. apply (duration_value_injective H24 H24). reflexivity. Defined.







Lemma upload_album_to_litterbox_order_witness :
  exists h',
    upload_album_to_litterbox Sample.litter Sample.anonymous
      Sample.three_paths 30 H1 2 (3 # 2) []
    = (h', Ok (map (fun _ : string => "https://litter.catbox.moe/q1w2e3.png")
                 Sample.three_paths)).
Proof.
  apply (upload_album_to_litterbox_order Sample.litter Sample.anonymous
           Sample.three_paths 30 2 H1 (3 # 2)
           (fun _ => "https://litter.catbox.moe/q1w2e3.png")).
  - intros Hgt; discriminate Hgt.
  - intros p h _. eexists. reflexivity.
Defined.

(* ================================================================== *)
(** ** Where requests go *)

Lemma only_api_post (r : request) (h : history) :
  req_url r = api_url -> only_api h -> only_api (Post r :: h).
Proof. intros Hr Hh. constructor; assumption. Qed.

Lemma only_api_read (path : string) (h : history) :
  only_api h -> only_api (ReadFile path :: h).
Proof. intros Hh. exact Hh. Qed.

Lemma only_api_sleep (d : Q) (h : history) :
  only_api h -> only_api (Sleep d :: h).
Proof. intros Hh. exact Hh. Qed.

Lemma upload_file_only_api (E : env) (self : CatboxAsyncUploader)
  (input : FilePathOrBytes) (timeout : Z) (file_name : option string)
  (h : history) :
  only_api h -> only_api (fst (upload_file E self input timeout file_name h)).
Proof.
  intros Hh.
  unfold upload_file, try_except, bind, _check_userhash_value,
         _prepare_content, _get_content, post, emit, lift, ret, raise.
  destruct (userhash self); [|exact Hh].
  destruct file_name, input; simpl; try exact Hh;
    try (destruct (fs E _); simpl; [|exact Hh]);
    destruct (net E _ _) as [status text|e]; simpl;
    try destruct (status =? 200); simpl;
    apply only_api_post; try reflexivity; exact Hh.
Qed.

Lemma upload_to_litterbox_only_api (E : env) (self : CatboxAsyncUploader)
  (input : FilePathOrBytes) (file_name : option string)
  (duration : LitterboxDuration) (timeout : Z) (h : history) :
  only_api h ->
  only_api (fst (upload_to_litterbox E self input file_name duration timeout h)).
Proof.
  intros Hh.
  unfold upload_to_litterbox, try_except, bind, _get_content, post, emit,
         lift, ret, raise.
  destruct input; simpl; try exact Hh;
    try (destruct (fs E _); simpl; [|exact Hh]);
    destruct (net E _ _) as [status text|e]; simpl;
    try destruct (status =? 200); simpl;
    apply only_api_post; try reflexivity; exact Hh.
Qed.

Section Invariant.

Variable upload : string -> M string.
Hypothesis upload_keeps : forall p h, only_api h -> only_api (fst (upload p h)).

Lemma gather_only_api (chunk : list string) (h : history) :
  only_api h -> only_api (fst (gather (map upload chunk) h)).
Proof.
  revert h. induction chunk as [|p chunk IH]; intros h Hh; [exact Hh|].
  simpl. pose proof (upload_keeps p h Hh) as Hp.
  destruct (upload p h) as [h1 [a|e]]; simpl in Hp.
  - pose proof (IH h1 Hp) as Hg.
    destruct (gather (map upload chunk) h1) as [h2 [l|e]]; exact Hg.
  - exact (IH h1 Hp).
Qed.

Lemma upload_chunks_only_api (time_sleep : Q) (cs : list (list string))
  (uploaded_links : list string) (h : history) :
  only_api h ->
  only_api (fst (upload_chunks upload time_sleep cs uploaded_links h)).
Proof.
  revert uploaded_links h.
  induction cs as [|chunk cs IH]; intros acc h Hh; [exact Hh|].
  simpl. unfold bind at 1.
  pose proof (gather_only_api chunk h Hh) as Hg.
  destruct (gather (map upload chunk) h) as [h1 [links|e]]; simpl in Hg;
    [|exact Hg].
  unfold bind, emit. apply IH. apply only_api_sleep. exact Hg.
Qed.

Lemma album_only_api (hs : handlers) (file_paths : list string) (C : Z)
  (time_sleep : Q) (h : history) :
  only_api h ->
  only_api
    (fst (try_except
            (cs <- lift (chunks file_paths C) ;;
             upload_chunks upload time_sleep cs []) hs h)).
Proof.
  intros Hh. unfold try_except, bind, lift.
  destruct (chunks file_paths C) as [cs|e]; [|exact Hh].
  pose proof (upload_chunks_only_api time_sleep cs [] h Hh) as Hrun.
  destruct (upload_chunks upload time_sleep cs [] h) as [h1 [l|e]];
    exact Hrun.
Qed.

End Invariant.

(** X25.  No operation ever posts anywhere but to the API endpoint
    [api_url], the temporary uploads included: if all requests so far
    went there, so do all requests after any of the eight operations,
    whether it returns or raises. *)
Theorem every_request_goes_to_the_api
  (E : env) (self : CatboxAsyncUploader) (input : FilePathOrBytes)
  (files : list string) (shortcode title description : string)
  (file_name : option string) (duration : LitterboxDuration)
  (timeout chunk_size : Z) (time_sleep : Q) (h : history) :
  only_api h ->
  only_api (fst (upload_file E self input timeout file_name h))
  /\ only_api (fst (upload_to_litterbox E self input file_name duration
                      timeout h))
  /\ only_api (fst (upload_album E self files timeout chunk_size time_sleep h))
  /\ only_api (fst (upload_album_to_litterbox E self files timeout duration
                      chunk_size time_sleep h))
  /\ only_api (fst (delete_files E self files timeout h))
  /\ only_api (fst (create_album E self files title description h))
  /\ only_api (fst (edit_album E self shortcode files title description h))
  /\ only_api (fst (delete_album E self shortcode h)).
Proof.
  intros Hh.
  split; [apply upload_file_only_api; exact Hh|].
  split; [apply upload_to_litterbox_only_api; exact Hh|].
  split; [apply album_only_api; [|exact Hh]; intros p k;
          apply upload_file_only_api|].
  split; [apply album_only_api; [|exact Hh]; intros p k;
          apply upload_to_litterbox_only_api|].
  repeat split;
    unfold delete_files, create_album, edit_album, delete_album, try_except,
           bind, _check_userhash_value, post, raise_for_status, ret, raise;
    (destruct (userhash self); [|exact Hh]);
    (destruct (net E h _) as [status text|e]; simpl;
     [destruct (400 <=? status); simpl|]);
    apply only_api_post; try reflexivity; exact Hh.
Qed.

Lemma every_request_goes_to_the_api_witness :
  only_api (fst (upload_album_to_litterbox Sample.litter Sample.anonymous
                   Sample.three_paths 30 H1 2 (3 # 2) [])).
Proof.
  apply (every_request_goes_to_the_api Sample.litter Sample.anonymous
           (PathStr "cat.png") Sample.three_paths "xyz789" "cats" "" None H1
           30 2 (3 # 2) []).
  constructor.
Defined.
